(** * Root finder: bisection, regula falsi, Newton-Raphson, secant,
      incremental search and the graphical method

    A shallow embedding of the six numerical methods of
    [rootFinder/methods] and the properties of their control flow.

    Numbers are Python [float]s, that is IEEE 754 binary64 values: they
    are modelled by Rocq's primitive [float], whose operations are the
    binary64 ones (including NaN, signed zeros and infinities).

    - The interval ends, guesses, steps and tolerances are [float]s;
      [max_iter], [num_intervals] and [num_guesses] are [int]s ([Z]).
    - The objective is a callable: applied to a float it returns a float
      or raises.  It is pure, so evaluating it twice at one point gives
      one answer.
    - [/] on Python floats raises [ZeroDivisionError] on a zero divisor;
      on NumPy float64 values (the graphical method) it does not.
    - A record is the [dict] the source builds, keys in insertion order;
      [round] is Python's, correctly rounded to the decimal digits asked.
    - A [for] loop is a fold over its index list that can stop early; a
      [while] loop takes fuel.  A method returns its two lists, or the
      exception that escaped it. *)

From Stdlib Require Import ZArith List String Bool Lia.
From Stdlib Require Import Floats.
Import ListNotations.

Set Warnings "-inexact-float".

Local Open Scope Z_scope.

(** ** Python values *)

Module Py.

(** Exceptions that can reach the caller of a method. *)
Inductive exn : Type :=
| ZeroDivisionError
| ValueError (msg : string)
| OverflowError
| ObjectiveError (tag : Z).   (* what the objective itself may raise *)

(** The result of evaluating a Python expression. *)
Inductive result (A : Type) : Type :=
| Ok (a : A)
| Raise (e : exn).
Arguments Ok {A} a.
Arguments Raise {A} e.

Definition bind {A B : Type} (m : result A) (k : A -> result B) : result B :=
  match m with
  | Ok a => k a
  | Raise e => Raise e
  end.

(** [x / y] on Python floats: a zero divisor raises. *)
Definition div (x y : float) : result float :=
  if (y =? 0)%float then Raise ZeroDivisionError else Ok (x / y)%float.

(** [round_half_even num den] is the integer nearest to [num / den]
    ([den > 0]), ties going to the even one. *)
Definition round_half_even (num den : Z) : Z :=
  let q := num / den in
  let r := num mod den in
  match 2 * r ?= den with
  | Lt => q
  | Gt => q + 1
  | Eq => if Z.even q then q else q + 1
  end.

(** [round(x, ndigits)] for a float [x] and [ndigits >= 0]: the exact
    binary value of [x] is rounded to [ndigits] decimal places (ties to
    even) and the decimal result is converted back to the nearest
    float.  NaN and the infinities round to themselves. *)
Definition round (x : float) (ndigits : Z) : float :=
  match Prim2SF x with
  | S754_finite s m e =>
      let d := 10 ^ ndigits in
      let num := if 0 <=? e then Zpos m * 2 ^ e * d else Zpos m * d in
      let den := if 0 <=? e then 1 else 2 ^ (- e) in
      let p := round_half_even num den in
      if p =? 0 then (if s then neg_zero else zero)
      else
        let '(q, e', l) := SFdiv_core_binary prec emax p 0 d 0 in
        SF2Prim (binary_round_aux prec emax s q e' l)
  | _ => x
  end.

End Py.

Notation "x <- m ;; k" := (Py.bind m (fun x => k))
  (at level 61, m at next level, right associativity).

(** [float(i)] for a Python [int] below [2^63] in magnitude. *)
Definition of_int (z : Z) : float :=
  match z with
  | Z0 => 0%float
  | Zpos _ => of_uint63 (Uint63.of_Z z)
  | Zneg q => (- of_uint63 (Uint63.of_Z (Zpos q)))%float
  end.

(** ** Iteration records

    A record is a Python [dict]: keys in insertion order.  A value that
    the source formats with an f-string is kept as the format and its
    arguments. *)

Inductive value : Type :=
| VInt (z : Z)
| VFloat (x : float)
| VStr (s : string)
| VNone
| VFormat (fmt : string) (args : list float).

Definition record : Type := list (string * value).

(** [d[key] = v] on a dict that does not hold [key] yet. *)
Definition set_key (key : string) (v : value) (d : record) : record :=
  d ++ [(key, v)].

(** [table[-1][key] = v]. *)
Fixpoint set_last (key : string) (v : value) (table : list record) : list record :=
  match table with
  | [] => []
  | [d] => [set_key key v d]
  | d :: rest => d :: set_last key v rest
  end.

Fixpoint get (key : string) (d : record) : option value :=
  match d with
  | [] => None
  | (k, v) :: rest => if String.eqb k key then Some v else get key rest
  end.

(** ** Loops

    One pass of a loop body either falls through to the next pass,
    executes [break], or raises.  The lists a method appends to are
    local to the call, so a pass that raises leaves nothing behind but
    the exception; [Raised] still carries the state the pass started
    from. *)

Inductive step (St : Type) : Type :=
| Continue (s : St)
| Break (s : St)
| Throw (e : Py.exn).
Arguments Continue {St} s.
Arguments Break {St} s.
Arguments Throw {St} e.

Inductive outcome (St : Type) : Type :=
| Done (s : St)
| Raised (e : Py.exn) (s : St).
Arguments Done {St} s.
Arguments Raised {St} e s.

Notation "x <~ m ;; k" :=
  (match m with Py.Ok x => k | Py.Raise e => Throw e end)
  (at level 61, m at next level, right associativity).

(** [range(n)] *)
Definition range (n : Z) : list Z := map Z.of_nat (seq 0 (Z.to_nat n)).

(** [for i in xs: body] *)
Fixpoint for_loop {St : Type} (body : Z -> St -> step St) (xs : list Z) (s : St)
  : outcome St :=
  match xs with
  | [] => Done s
  | i :: rest =>
      match body i s with
      | Continue s' => for_loop body rest s'
      | Break s' => Done s'
      | Throw e => Raised e s
      end
  end.

(** [while guard: body], cut after [fuel] passes ([None]). *)
Fixpoint while_loop {St : Type} (guard : St -> bool) (body : St -> step St)
  (fuel : nat) (s : St) : option (outcome St) :=
  if guard s then
    match fuel with
    | O => None
    | S n =>
        match body s with
        | Continue s' => while_loop guard body n s'
        | Break s' => Some (Done s')
        | Throw e => Some (Raised e s)
        end
    end
  else Some (Done s).

(** The objective: a callable that returns a float or raises. *)
Definition objective : Type := float -> Py.result float.

Definition tiny : float := 1e-10%float.

(** The state a loop ended in. *)
Definition final {St : Type} (o : outcome St) : St :=
  match o with
  | Done s => s
  | Raised _ s => s
  end.

(** What a method hands back: [(roots, table_data)], or the exception
    that escaped. *)
Definition run_result : Type := Py.result (list float * list record).

(** The approximate relative error [|x_new - x| / |x_new|], taken as
    [0] when [x_new] is zero. *)
Definition relative_error (x_new x : float) : float :=
  if (x_new =? 0)%float then 0%float else (abs (x_new - x) / abs x_new)%float.

(** The marker written on the last record when the passes run out. *)
Definition mark_last (iteration max_iter : Z) (d : record) : record :=
  if iteration =? max_iter - 1
  then set_key "Status" (VStr "Max iterations reached") d
  else d.

(** What a pass that does not raise may do to the two lists: leave
    the roots alone and append at most one record to the table, or
    append one root [r] together with one record, the pass's test
    [accepts r] having passed. *)
Definition paired (accepts : float -> Prop)
  (roots : list float) (table : list record)
  (roots' : list float) (table' : list record) : Prop :=
  (roots' = roots /\
   exists l, table' = table ++ l /\ (List.length l <= 1)%nat) \/
  (exists r d, roots' = roots ++ [r] /\ table' = table ++ [d] /\ accepts r).

(** The roots do not outnumber the records. *)
Definition covered (roots : list float) (table : list record) : Prop :=
  (List.length roots <= List.length table)%nat.

(** The returned records hold at least one record. *)
Definition has_record (r : run_result) : Prop :=
  exists roots table d, r = Py.Ok (roots, table) /\ In d table.

(** ** Newton-Raphson ([methods/open/newton_raphson.py]) *)

Module Newton.

Record state : Type := mk {
  x : float;
  roots : list float;
  table_data : list record
}.

(** [ea = abs((x_new - x)/x_new) if x_new != 0 else 0] *)
Definition rel_error (x_new x : float) : Py.result float :=
  if negb (x_new =? 0)%float then
    q <- Py.div (x_new - x)%float x_new ;; Py.Ok (abs q)
  else Py.Ok 0%float.

(** [round(ea * 100, 3)]; the literal [0] of the [else] branch is an
    [int] and stays one. *)
Definition ea_field (x_new ea : float) : value :=
  if negb (x_new =? 0)%float then VFloat (Py.round (ea * 100)%float 3)
  else VInt 0.

Definition stall_record (iteration : Z) (x fx dfx : float) : record :=
  [ ("No. of iteration", VInt iteration);
    ("xi", VFloat (Py.round x 6));
    ("ea", VNone);
    ("f(xi)", VFloat (Py.round fx 6));
    ("f'(xi)", VFloat (Py.round dfx 6)) ]%string.

Definition iter_record (iteration : Z) (x x_new ea fx dfx : float) : record :=
  [ ("No. of iteration", VInt iteration);
    ("xi", VFloat (Py.round x 6));
    ("ea", ea_field x_new ea);
    ("f(xi)", VFloat (Py.round fx 6));
    ("f'(xi)", VFloat (Py.round dfx 6)) ]%string.

(** The body of [for iteration in range(max_iter)]. *)
Definition body (f df : objective) (tol : float) (max_iter : Z)
  (iteration : Z) (s : state) : step state :=
  fx <~ f (x s) ;;
  dfx <~ df (x s) ;;
  if (abs dfx <? tiny)%float then
    Break (mk (x s) (roots s)
              (table_data s ++ [stall_record iteration (x s) fx dfx]))
  else
    q <~ Py.div fx dfx ;;
    let x_new := (x s - q)%float in
    ea <~ rel_error x_new (x s) ;;
    let table' := table_data s ++ [iter_record iteration (x s) x_new ea fx dfx] in
    if (ea <? tol)%float then
      Break (mk (x s) (roots s ++ [Py.round x_new 6]) table')
    else
      Continue (mk x_new (roots s)
                  (if iteration =? max_iter - 1
                   then set_last "Status" (VStr "Max iterations reached") table'
                   else table')).

Definition init (x0 : float) : state := mk x0 [] [].

(** The convergence test of the pass started in [s] lets [r] in. *)
Definition accepted_at (f df : objective) (tol : float) (s : state) (r : float) : Prop :=
  exists fx dfx,
    f (x s) = Py.Ok fx /\ df (x s) = Py.Ok dfx /\
    (abs dfx <? tiny)%float = false /\
    let x_new := (x s - fx / dfx)%float in
    r = Py.round x_new 6 /\
    (relative_error x_new (x s) <? tol)%float = true.

Definition run (f df : objective) (x0 tol : float) (max_iter : Z) : outcome state :=
  for_loop (body f df tol max_iter) (range max_iter) (init x0).

Definition newton_raphson (f df : objective) (x0 tol : float)
  (max_iter num_guesses : Z) : run_result :=
  match run f df x0 tol max_iter with
  | Done s => Py.Ok (roots s, table_data s)
  | Raised e _ => Py.Raise e
  end.

End Newton.

(** ** Secant ([methods/open/secant.py]) *)

Module Secant.

Record state : Type := mk {
  xi_prev : float;
  xi : float;
  roots : list float;
  table_data : list record
}.

Definition rel_error (xi_next xi : float) : Py.result float :=
  if negb (xi_next =? 0)%float then
    q <- Py.div (xi_next - xi)%float xi_next ;; Py.Ok (abs q)
  else Py.Ok 0%float.

Definition ea_field (xi_next ea : float) : value :=
  if negb (xi_next =? 0)%float then VFloat (Py.round (ea * 100)%float 3)
  else VInt 0.

Definition iter_record (iteration : Z)
  (xi_prev xi xi_next ea f_prev f_curr f_next : float) : record :=
  [ ("Iteration Number", VInt (iteration + 1));
    ("xi-1", VFloat (Py.round xi_prev 6));
    ("xi", VFloat (Py.round xi 6));
    ("xi+1", VFloat (Py.round xi_next 6));
    ("ea", ea_field xi_next ea);
    ("f(xi-1)", VFloat (Py.round f_prev 6));
    ("f(xi)", VFloat (Py.round f_curr 6));
    ("f(xi+1)", VFloat (Py.round f_next 6)) ]%string.

(** The tail of the body, after the record has been appended:
    [if ea < tol and abs(f(xi_next)) < tol], where [and] evaluates its
    right operand only when the left one holds. *)
Definition finish (f : objective) (tol : float) (max_iter iteration : Z)
  (s : state) (xi_next ea : float) (table' : list record) : step state :=
  let shifted :=
    Continue (mk (xi s) xi_next (roots s)
                (if iteration =? max_iter - 1
                 then set_last "Status" (VStr "Max iterations reached") table'
                 else table')) in
  if (ea <? tol)%float then
    f_again <~ f xi_next ;;
    if (abs f_again <? tol)%float then
      Break (mk (xi_prev s) (xi s) (roots s ++ [Py.round xi_next 6]) table')
    else shifted
  else shifted.

Definition body (f : objective) (tol : float) (max_iter : Z)
  (iteration : Z) (s : state) : step state :=
  f_prev <~ f (xi_prev s) ;;
  f_curr <~ f (xi s) ;;
  if (abs (f_curr - f_prev) <? tiny)%float then Break s
  else
    q <~ Py.div (f_curr * (xi s - xi_prev s))%float (f_curr - f_prev)%float ;;
    let xi_next := (xi s - q)%float in
    ea <~ rel_error xi_next (xi s) ;;
    f_next <~ f xi_next ;;
    let table' :=
      table_data s ++
      [iter_record iteration (xi_prev s) (xi s) xi_next ea f_prev f_curr f_next] in
    finish f tol max_iter iteration s xi_next ea table'.

Definition init (x0 x1 : float) : state := mk x0 x1 [] [].

(** The dual test of the pass started in [s] lets [r] in. *)
Definition accepted_at (f : objective) (tol : float) (s : state) (r : float) : Prop :=
  exists f_prev f_curr f_next,
    f (xi_prev s) = Py.Ok f_prev /\ f (xi s) = Py.Ok f_curr /\
    (abs (f_curr - f_prev) <? tiny)%float = false /\
    let xi_next := (xi s - f_curr * (xi s - xi_prev s) / (f_curr - f_prev))%float in
    f xi_next = Py.Ok f_next /\
    r = Py.round xi_next 6 /\
    (relative_error xi_next (xi s) <? tol)%float = true /\
    (abs f_next <? tol)%float = true.

Definition run (f : objective) (x0 x1 tol : float) (max_iter : Z) : outcome state :=
  for_loop (body f tol max_iter) (range max_iter) (init x0 x1).

Definition secant_method (f : objective) (x0 x1 tol : float) (max_iter : Z)
  : run_result :=
  match run f x0 x1 tol max_iter with
  | Done s => Py.Ok (roots s, table_data s)
  | Raised e _ => Py.Raise e
  end.

(** The pass starting in [s] finds [abs(f_curr - f_prev) < 1e-10]. *)
Definition f_slope_is_flat (f : objective) (s : state) : Prop :=
  exists f_prev f_curr,
    f (xi_prev s) = Py.Ok f_prev /\
    f (xi s) = Py.Ok f_curr /\
    (abs (f_curr - f_prev) <? tiny)%float = true.

End Secant.

(** ** Bisection ([methods/bracketing/bisection.py]) *)

Module Bisection.

Record state : Type := mk {
  a : float;
  b : float;
  x_old : option float;
  iteration : Z;
  roots : list float;
  table_data : list record
}.

(** [error = 0], then [abs((c - x_old) / c) * 100] once [x_old] is set. *)
Definition approx_error (x_old : option float) (c : float) : Py.result float :=
  match x_old with
  | None => Py.Ok 0%float
  | Some xo => q <- Py.div (c - xo)%float c ;; Py.Ok (abs q * 100)%float
  end.

(** [round(error, 7)]: the initial [0] is an [int]. *)
Definition error_field (x_old : option float) (error : float) : value :=
  match x_old with
  | None => VInt 0
  | Some _ => VFloat (Py.round error 7)
  end.

Definition iter_record (iteration : Z) (a c b fa fc fb : float)
  (x_old : option float) (error : float) (remark : string) : record :=
  [ ("Iteration", VInt iteration);
    ("xl", VFloat (Py.round a 7));
    ("xr", VFloat (Py.round c 7));
    ("xu", VFloat (Py.round b 7));
    ("f(xl)", VFloat (Py.round fa 7));
    ("f(xr)", VFloat (Py.round fc 7));
    ("f(xu)", VFloat (Py.round fb 7));
    ("|ea|%", error_field x_old error);
    ("f(xl)·f(xu)", VStr (if (fa * fb <? 0)%float then "< 0" else "> 0"));
    ("Remark", VStr remark) ]%string.

Definition midpoint (s : state) : float := ((a s + b s) / 2)%float.

(** The body of [while iteration <= max_iter]. *)
Definition body (f : objective) (tol : float) (s : state) : step state :=
  let c := midpoint s in
  fc <~ f c ;;
  fa <~ f (a s) ;;
  fb <~ f (b s) ;;
  error <~ approx_error (x_old s) c ;;
  let first := (fa * fc <? 0)%float in
  let remark := (if first then "1st subinterval" else "2nd subinterval")%string in
  let a' := if first then a s else c in
  let b' := if first then c else b s in
  let table' :=
    table_data s ++
    [iter_record (iteration s) a' c b' fa fc fb (x_old s) error remark] in
  if (error <? tol)%float && (1 <? iteration s) then
    Break (mk a' b' (x_old s) (iteration s) (roots s ++ [Py.round c 7]) table')
  else if (abs fc <? tiny)%float then
    Break (mk a' b' (Some c) (iteration s + 1) (roots s ++ [Py.round c 7]) table')
  else
    Continue (mk a' b' (Some c) (iteration s + 1) (roots s) table').

Definition guard (max_iter : Z) (s : state) : bool := iteration s <=? max_iter.

Definition init (a b : float) : state := mk a b None 1 [] [].

(** The loop; [max_iter] passes are all it can take, so that is the fuel. *)
Definition run (f : objective) (a b tol : float) (max_iter : Z)
  : option (outcome state) :=
  while_loop (guard max_iter) (body f tol) (Z.to_nat max_iter) (init a b).

Definition bisection_method (f : objective) (a b tol : float) (max_iter : Z)
  : option run_result :=
  match f a with
  | Py.Raise e => Some (Py.Raise e)
  | Py.Ok ya =>
      match f b with
      | Py.Raise e => Some (Py.Raise e)
      | Py.Ok yb =>
          if (0 <? ya * yb)%float then Some (Py.Ok ([], []))
          else
            match run f a b tol max_iter with
            | None => None
            | Some (Done s) => Some (Py.Ok (roots s, table_data s))
            | Some (Raised e _) => Some (Py.Raise e)
            end
      end
  end.

(** The states in which the loop starts a pass. *)
Inductive reached (f : objective) (tol : float) (max_iter : Z) (s0 : state)
  : state -> Prop :=
| reached_first : reached f tol max_iter s0 s0
| reached_next (s s' : state) :
    reached f tol max_iter s0 s ->
    guard max_iter s = true ->
    body f tol s = Continue s' ->
    reached f tol max_iter s0 s'.

(** The pass started in [s] accepts [r]: [r] is the midpoint [c] of
    that pass, rounded for the record, and [c] passed the relative-error
    test after a first pass, or [abs(f(c)) < 1e-10]. *)
Definition accepted_at (f : objective) (tol : float) (s : state) (r : float) : Prop :=
  exists fc error,
    f (midpoint s) = Py.Ok fc /\
    approx_error (x_old s) (midpoint s) = Py.Ok error /\
    r = Py.round (midpoint s) 7 /\
    ((error <? tol)%float && (1 <? iteration s) = true \/
     (abs fc <? tiny)%float = true).

(** The loop invariant: no root yet, one record per pass taken. *)
Definition inv (f : objective) (tol : float) (max_iter : Z) (s0 s : state) : Prop :=
  reached f tol max_iter s0 s /\
  roots s = [] /\
  1 <= iteration s /\
  Z.of_nat (List.length (table_data s)) = iteration s - 1 /\
  iteration s - 1 <= Z.max 0 max_iter.

Definition post (f : objective) (tol : float) (max_iter : Z) (s0 s : state) : Prop :=
  (List.length (table_data s) <= Z.to_nat max_iter)%nat /\
  (List.length (roots s) <= 1)%nat /\
  forall r, In r (roots s) ->
    exists s1, reached f tol max_iter s0 s1 /\
               guard max_iter s1 = true /\
               accepted_at f tol s1 r.

End Bisection.

(** ** Regula falsi ([methods/bracketing/regula_falsi.py]) *)

Module RegulaFalsi.

Record state : Type := mk {
  left : float;
  right : float;
  fl : float;
  fr : float;
  roots : list float;
  table_data : list record
}.

(** The [for existing_root in roots] scan: [False] as soon as one
    accepted root has [abs(c - existing_root) < tol]. *)
Definition is_unique (tol c : float) (roots : list float) : bool :=
  forallb (fun existing_root => negb (abs (c - existing_root) <? tol)%float) roots.

Definition iter_record (x1 x2 : float) (iteration : Z) (left right c fc : float)
  : record :=
  [ ("Subinterval", VFormat "[{x1:.2f}, {x2:.2f}]" [x1; x2]);
    ("Iteration", VInt (iteration + 1));
    ("a", VFloat (Py.round left 6));
    ("b", VFloat (Py.round right 6));
    ("c", VFloat (Py.round c 6));
    ("f(c)", VFormat "{fc:.4e}" [fc]) ]%string.

(** The body of [for iteration in range(max_iter)]. *)
Definition body (f : objective) (tol x1 x2 : float) (iteration : Z) (s : state)
  : step state :=
  c <~ Py.div (left s * fr s - right s * fl s)%float (fr s - fl s)%float ;;
  fc <~ f c ;;
  let table' :=
    table_data s ++ [iter_record x1 x2 iteration (left s) (right s) c fc] in
  if (abs fc <? tol)%float then
    Break (mk (left s) (right s) (fl s) (fr s)
              (if is_unique tol c (roots s) then roots s ++ [Py.round c 6]
               else roots s)
              table')
  else
    let s' :=
      if (fl s * fc <? 0)%float
      then mk (left s) c (fl s) fc (roots s) table'
      else mk c (right s) fc (fr s) (roots s) table' in
    if (abs (right s' - left s') <? tol)%float then Break s' else Continue s'.


(** The residual test of the pass started in [s] lets [r] in. *)
Definition accepted_at (f : objective) (tol : float) (s : state) (r : float) : Prop :=
  exists c fc,
    Py.div (left s * fr s - right s * fl s)%float (fr s - fl s)%float = Py.Ok c /\
    f c = Py.Ok fc /\
    r = Py.round c 6 /\
    (abs fc <? tol)%float = true /\
    is_unique tol c (roots s) = true.

(** [f(x1) * f(x2) >= 0]: the subinterval is skipped. *)
Definition skipped (y1 y2 : float) : bool := (0 <=? y1 * y2)%float.

Definition endpoints (a subinterval_size : float) (i : Z) : float * float :=
  let x1 := (a + of_int i * subinterval_size)%float in
  (x1, (x1 + subinterval_size)%float).

(** The false-position iteration on one subinterval. *)
Definition attempt (f : objective) (tol : float) (max_iter : Z) (x1 x2 : float)
  (acc : list float * list record) : outcome state :=
  match f x1 with
  | Py.Raise e => Raised e (mk x1 x2 0 0 (fst acc) (snd acc))
  | Py.Ok l0 =>
      match f x2 with
      | Py.Raise e => Raised e (mk x1 x2 l0 0 (fst acc) (snd acc))
      | Py.Ok r0 =>
          for_loop (body f tol x1 x2) (range max_iter)
                   (mk x1 x2 l0 r0 (fst acc) (snd acc))
      end
  end.

(** The body of [for i in range(num_intervals)]. *)
Definition scan (f : objective) (a tol : float) (max_iter : Z)
  (subinterval_size : float) (i : Z) (acc : list float * list record)
  : step (list float * list record) :=
  let '(x1, x2) := endpoints a subinterval_size i in
  y1 <~ f x1 ;;
  y2 <~ f x2 ;;
  if skipped y1 y2 then Continue acc
  else
    match attempt f tol max_iter x1 x2 acc with
    | Done s => Continue (roots s, table_data s)
    | Raised e _ => Throw e
    end.

Definition regula_falsi (f : objective) (a b tol : float)
  (max_iter num_intervals : Z) : run_result :=
  subinterval_size <- Py.div (b - a)%float (of_int num_intervals) ;;
  match for_loop (scan f a tol max_iter subinterval_size)
                 (range num_intervals) ([], []) with
  | Done acc => Py.Ok acc
  | Raised e _ => Py.Raise e
  end.

End RegulaFalsi.

(** ** Incremental search ([methods/basic/incremental.py]) *)

Module Incremental.

Record state : Type := mk {
  x : float;
  iteration : Z;
  roots : list float;
  table_data : list record
}.

(** [np.isnan(v) or np.isinf(v)] *)
Definition not_finite (v : float) : bool := is_nan v || is_infinity v.

(** Both evaluations of the [try] block. *)
Definition samples (f : objective) (x x_next : float) : Py.result (float * float) :=
  fx <- f x ;;
  fx_next <- f x_next ;;
  Py.Ok (fx, fx_next).

(** [product]: [None] when a sample is NaN or infinite. *)
Definition product_of (fx fx_next : float) : option float :=
  if not_finite fx || not_finite fx_next then None
  else Some (fx * fx_next)%float.

Definition remark_of (product : option float) : string :=
  match product with
  | None => "Function is undefined or infinite at this point"
  | Some p =>
      if (0 <? p)%float then "No root in this interval"
      else "A root exists in this interval"
  end.

Definition iter_record (iteration : Z) (x fx : float) (product : option float)
  : record :=
  [ ("i", VInt iteration);
    ("xi", VFloat (Py.round x 3));
    ("f(xi)", if not_finite fx then VStr "Undefined or Infinite"
              else VFloat (Py.round fx 6));
    ("f(xi)*f(xi+1)", match product with
                      | None => VStr "Undefined or Infinite"
                      | Some p => VFloat (Py.round p 6)
                      end);
    ("Remark", VStr (remark_of product)) ]%string.

Definition failed_record (iteration : Z) (x : float) : record :=
  [ ("i", VInt iteration);
    ("xi", VFloat (Py.round x 3));
    ("f(xi)", VStr "Unable to evaluate function");
    ("f(xi)*f(xi+1)", VStr "Unable to evaluate function");
    ("Remark", VStr "Function evaluation failed at this point") ]%string.

(** The inner [try]: the interpolated root, the midpoint when the
    slope is too small. *)
Definition estimate (x x_next step fx fx_next : float) : Py.result float :=
  let denominator := (fx_next - fx)%float in
  if (abs denominator <? tiny)%float then Py.Ok ((x + x_next) / 2)%float
  else q <- Py.div (step * fx)%float denominator ;; Py.Ok (x - q)%float.

(** [roots] after the root attempt of one pass; the inner [except: pass]
    swallows a failed estimate. *)
Definition attempt (x x_next step fx fx_next : float) (product : option float)
  (roots : list float) : list float :=
  match product with
  | None => roots
  | Some p =>
      if (p <=? 0)%float then
        match estimate x x_next step fx fx_next with
        | Py.Ok root =>
            if negb (not_finite root) then roots ++ [Py.round root 6] else roots
        | Py.Raise _ => roots
        end
      else roots
  end.

(** The body of [while x <= b]; nothing escapes its [try]/[except]. *)
Definition body (f : objective) (step : float) (s : state) : state :=
  let x_next := (x s + step)%float in
  match samples f (x s) x_next with
  | Py.Ok (fx, fx_next) =>
      let product := product_of fx fx_next in
      mk x_next (iteration s + 1)
         (attempt (x s) x_next step fx fx_next product (roots s))
         (table_data s ++ [iter_record (iteration s) (x s) fx product])
  | Py.Raise _ =>
      mk x_next (iteration s + 1) (roots s)
         (table_data s ++ [failed_record (iteration s) (x s)])
  end.

Definition guard (b : float) (s : state) : bool := (x s <=? b)%float.

(** The sign test of the step started in [s] holds. *)
Definition detected_at (f : objective) (step : float) (s : state) : Prop :=
  exists fx fx_next p,
    f (x s) = Py.Ok fx /\ f (x s + step)%float = Py.Ok fx_next /\
    product_of fx fx_next = Some p /\
    (p <=? 0)%float = true.

Definition init (a : float) : state := mk a 1 [] [].

(** The loop [while x <= b], cut after [fuel] passes. *)
Definition loop (f : objective) (b step : float) (fuel : nat) (s : state)
  : option (outcome state) :=
  while_loop (guard b) (fun s => Continue (body f step s)) fuel s.

Definition run (f : objective) (a b step : float) (fuel : nat)
  : option (outcome state) :=
  loop f b step fuel (init a).

Definition incremental_search (f : objective) (a b step : float) (fuel : nat)
  : option run_result :=
  match run f a b step fuel with
  | None => None
  | Some (Done s) => Some (Py.Ok (roots s, table_data s))
  | Some (Raised e _) => Some (Py.Raise e)
  end.

End Incremental.

(** ** Graphical method ([methods/basic/graphical.py]) *)

(** What the method uses of NumPy.  [arange start stop step] is the
    grid or the exception [np.arange] raises; [mean] and [std] are taken
    over an integer array; [around x n] is [round(x, n)] on a float64
    scalar. *)
Class NumPy : Type := {
  arange : float -> float -> float -> Py.result (list float);
  mean : list Z -> float;
  std : list Z -> float;
  around : float -> Z -> float
}.

(** [np.diff] on a list of [int]s. *)
Fixpoint diff (l : list Z) : list Z :=
  match l with
  | [] => []
  | i :: rest =>
      match rest with
      | [] => []
      | j :: _ => (j - i) :: diff rest
      end
  end.

(** [f(x_vals)] on an array, elementwise. *)
Fixpoint vectorized (f : objective) (xs : list float) : Py.result (list float) :=
  match xs with
  | [] => Py.Ok []
  | x :: rest =>
      y <- f x ;;
      ys <- vectorized f rest ;;
      Py.Ok (y :: ys)
  end.

Module Graphical.

Record state : Type := mk {
  roots : list float;
  table_data : list record;
  zero_crossings : list Z
}.

Record output : Type := mk_output {
  out_roots : list float;
  out_table : list record;
  is_periodic : bool;
  period : option float
}.

Section WithNumPy.
Context {np : NumPy}.

Definition at_index (l : list float) (i : Z) : float := nth (Z.to_nat i) l 0%float.

Definition sample_record (x fx : float) : record :=
  [ ("x", VFloat (around x 3)); ("f(x)", VFloat (around fx 8)) ]%string.

Definition period_record (period : float) : record :=
  [ ("x", VStr "Period"); ("f(x)", VFormat "{period:.6f}" [period]) ]%string.

(** The linear interpolation between samples [i - 1] and [i]. *)
Definition x_root (x_vals y_vals : list float) (i : Z) : float :=
  (at_index x_vals (i - 1)
   - at_index y_vals (i - 1) * (at_index x_vals i - at_index x_vals (i - 1))
     / (at_index y_vals i - at_index y_vals (i - 1)))%float.

Definition sign_change (y_vals : list float) (i : Z) : bool :=
  (0 <? i) && (at_index y_vals (i - 1) * at_index y_vals i <=? 0)%float.

(** The body of [for i, x in enumerate(x_vals)]. *)
Definition body (f : objective) (x_vals y_vals : list float) (i : Z) (s : state)
  : step state :=
  let x := at_index x_vals i in
  fx <~ f x ;;
  let table' := table_data s ++ [sample_record x fx] in
  if sign_change y_vals i then
    Continue (mk (roots s ++ [around (x_root x_vals y_vals i) 6]) table'
                 (zero_crossings s ++ [i]))
  else Continue (mk (roots s) table' (zero_crossings s)).

(** The periodicity test on the collected crossing indices. *)
Definition looks_periodic (zero_crossings : list Z) : bool :=
  (4 <? Z.of_nat (List.length zero_crossings)) &&
  (std (diff zero_crossings) <? mean (diff zero_crossings) * 0.1)%float.

Definition conclude (step : float) (s : state) : output :=
  if looks_periodic (zero_crossings s) then
    let period := (mean (diff (zero_crossings s)) * step)%float in
    mk_output (roots s) (table_data s ++ [period_record period]) true (Some period)
  else mk_output (roots s) (table_data s) false None.

Definition scan (f : objective) (x_vals y_vals : list float) : outcome state :=
  for_loop (body f x_vals y_vals) (range (Z.of_nat (List.length x_vals))) (mk [] [] []).

Definition graphical_method (f : objective) (x_min x_max step : float)
  : Py.result output :=
  if (step <=? 0)%float then Py.Raise (Py.ValueError "Step size must be positive")
  else
    x_vals <- arange x_min (x_max + step / 2)%float step ;;
    y_vals <- vectorized f x_vals ;;
    match scan f x_vals y_vals with
    | Done s => Py.Ok (conclude step s)
    | Raised e _ => Py.Raise e
    end.

End WithNumPy.

End Graphical.

(** ** A reference NumPy

    The grid, the statistics and the scalar rounding as NumPy computes
    them on float64, used to run the graphical method on concrete
    inputs.  The statements about [graphical_method] hold for every
    [NumPy]. *)

Module NumPyModel.

(** [ceil(x)] as an integer; [None] for NaN and the infinities. *)
Definition ceil (x : float) : option Z :=
  match Prim2SF x with
  | S754_zero _ => Some 0
  | S754_finite s m e =>
      let v := if s then Zneg m else Zpos m in
      Some (if 0 <=? e then v * 2 ^ e else - ((- v) / 2 ^ (- e)))
  | _ => None
  end.

(** [np.rint]: the nearest integer, ties to even, as a float. *)
Definition rint (x : float) : float :=
  match Prim2SF x with
  | S754_finite s m e =>
      if 0 <=? e then x
      else
        let r := Py.round_half_even (Zpos m) (2 ^ (- e)) in
        if s then (- of_int r)%float else of_int r
  | _ => x
  end.

(** [np.arange(start, stop, step)]: [ceil((stop - start)/step)] points,
    the first two set to [start] and [start + step], the others filled
    as [start + i*delta] with [delta] the difference of the first two. *)
Definition arange (start stop step : float) : Py.result (list float) :=
  let q := ((stop - start) / step)%float in
  if is_nan q then Py.Raise (Py.ValueError "arange: cannot compute length")
  else
    match ceil q with
    | None => Py.Raise Py.OverflowError
    | Some n =>
        if 2 ^ 63 <=? n then Py.Raise Py.OverflowError
        else
          let next := (start + step)%float in
          let delta := (next - start)%float in
          Py.Ok (map (fun i => if i =? 0 then start
                               else if i =? 1 then next
                               else (start + of_int i * delta)%float)
                     (range n))
    end.

Definition total (l : list Z) : Z := fold_left Z.add l 0.

(** [np.mean] of an integer array: the float sum over the count. *)
Definition mean (l : list Z) : float :=
  (of_int (total l) / of_int (Z.of_nat (List.length l)))%float.

(** [np.std]: the root of the mean squared deviation from the mean. *)
Definition std (l : list Z) : float :=
  let m := mean l in
  let sq := fold_left (fun acc z => (acc + (of_int z - m) * (of_int z - m))%float) l 0%float in
  sqrt (sq / of_int (Z.of_nat (List.length l))).

(** [round(x, n)] on a float64 scalar: scale, [rint], scale back. *)
Definition around (x : float) (n : Z) : float :=
  let p := of_int (10 ^ n) in
  (rint (x * p) / p)%float.

#[export] Instance numpy64 : NumPy := {
  arange := arange;
  mean := mean;
  std := std;
  around := around
}.

End NumPyModel.

(** ** Objectives used in the examples *)

Definition sq_minus_4 : objective := fun x => Py.Ok (x * x - 4)%float.
Definition two_x : objective := fun x => Py.Ok (2 * x)%float.


Definition sq_plus_1 : objective := fun x => Py.Ok (x * x + 1)%float.
Definition const_one : objective := fun _ => Py.Ok 1%float.

(** [1/x] on float64 arrays and scalars: infinite at zero. *)
Definition reciprocal : objective := fun x => Py.Ok (1 / x)%float.


(** [x - 0.5] *)
Definition shifted_line : objective := fun x => Py.Ok (x - 0.5)%float.

(** A quintic with the five roots -2.1, -1.1, -0.1, 0.9, 1.9. *)
Definition quintic : objective := fun x =>
  Py.Ok ((x + 2.1) * (x + 1.1) * (x + 0.1) * (x - 0.9) * (x - 1.9))%float.

(** A method result cut down to the roots and the number of records,
    or the exception. *)
Definition summary (r : run_result) : Py.result (list float * nat) :=
  match r with
  | Py.Ok (roots, table) => Py.Ok (roots, List.length table)
  | Py.Raise e => Py.Raise e
  end.

(** ** Reading a table *)

(** The records of [table] carry [start], [start + 1], ... under [key],
    in order. *)
Definition numbered (key : string) (start : Z) (table : list record) : Prop :=
  forall k d,
    nth_error table k = Some d -> get key d = Some (VInt (start + Z.of_nat k)).

(** A bisection record is labelled with the half that was kept, and
    its midpoint column repeats the bound that the midpoint became. *)
Definition bisection_labelled (d : record) : Prop :=
  (get "Remark" d = Some (VStr "1st subinterval") /\ get "xr" d = get "xu" d) \/
  (get "Remark" d = Some (VStr "2nd subinterval") /\ get "xr" d = get "xl" d).

(** The shape of a Newton-Raphson table, as the loop leaves it. *)
Definition newton_shape (max_iter : Z) (roots : list float) (table : list record)
  : Prop :=
  numbered "No. of iteration" 0 table /\
  (forall d, In d table -> get "Status" d <> None ->
     get "Status" d = Some (VStr "Max iterations reached") /\
     get "No. of iteration" d = Some (VInt (max_iter - 1)) /\
     roots = [] /\
     List.length table = Z.to_nat max_iter) /\
  (forall k d, nth_error table k = Some d -> get "ea" d = Some VNone ->
     S k = List.length table /\ roots = []).

(** The shape of a secant table. *)
Definition secant_shape (max_iter : Z) (roots : list float) (table : list record)
  : Prop :=
  numbered "Iteration Number" 1 table /\
  (List.length table <= Z.to_nat max_iter)%nat /\
  (forall d, In d table -> get "Status" d <> None ->
     get "Status" d = Some (VStr "Max iterations reached") /\
     get "Iteration Number" d = Some (VInt max_iter) /\
     roots = [] /\
     List.length table = Z.to_nat max_iter).

(** * Properties *)

#[local] Existing Instance NumPyModel.numpy64.

(** ** Examples *)

Example round_2_675 : Py.round 2.675%float 2 = 2.67%float.
Proof. vm_compute. reflexivity. Qed.
Example round_0_125 : Py.round 0.125%float 2 = 0.12%float.
Proof. vm_compute. reflexivity. Qed.
Example round_big : Py.round 1234567890.1234567%float 7 = 1234567890.1234567%float.
Proof. vm_compute. reflexivity. Qed.
Example round_neg : Py.round (-0.00000001)%float 6 = neg_zero.
Proof. vm_compute. reflexivity. Qed.
Example round_2 : Py.round 1.9999999%float 6 = 2%float.
Proof. vm_compute. reflexivity. Qed.

Example bisection_sq_minus_4 :
  option_map summary (Bisection.bisection_method sq_minus_4 0 10 0.5 50)
  = Some (Py.Ok ([2.0019531%float], 10%nat)).
Proof. vm_compute. reflexivity. Qed.

(** The second midpoint is [0.0]: the relative error divides by it. *)
Example bisection_zero_midpoint :
  Bisection.bisection_method shifted_line (-3) 1 0.5 50
  = Some (Py.Raise Py.ZeroDivisionError).
Proof. vm_compute. reflexivity. Qed.

Example newton_sq_minus_4 :
  summary (Newton.newton_raphson sq_minus_4 two_x 1 0.001 100 5)
  = Py.Ok ([2%float], 4%nat).
Proof. vm_compute. reflexivity. Qed.

Example newton_flat_start :
  Newton.newton_raphson sq_minus_4 two_x 0 0.001 100 5
  = Py.Ok ([], [Newton.stall_record 0 0 (-4) 0]).
Proof. vm_compute. reflexivity. Qed.

Example secant_sq_minus_4 :
  summary (Secant.secant_method sq_minus_4 0.5 5 0.001 100)
  = Py.Ok ([2.000001%float], 6%nat).
Proof. vm_compute. reflexivity. Qed.

Example regula_falsi_sq_minus_4 :
  summary (RegulaFalsi.regula_falsi sq_minus_4 0 3 1e-6 100 1)
  = Py.Ok ([2%float], 11%nat).
Proof. vm_compute. reflexivity. Qed.

(** Around the pole of [1/x] the scan records the undefined samples
    and goes on. *)
Example incremental_reciprocal :
  option_map summary (Incremental.incremental_search reciprocal (-0.2) 0.2 0.1 100)
  = Some (Py.Ok ([], 5%nat)).
Proof. vm_compute. reflexivity. Qed.

(** With a zero step [x] never moves: the scan has no end, whatever
    the fuel. *)
Example incremental_zero_step_never_ends :
  forall fuel, Incremental.incremental_search const_one 0 1 0 fuel = None.
Proof.
  assert (H : forall fuel it roots table,
             Incremental.loop const_one 1 0 fuel (Incremental.mk 0 it roots table) = None).
  { induction fuel as [| n IH]; intros it roots table; [reflexivity |].
    unfold Incremental.loop. cbn [while_loop].
    change (Incremental.guard 1 (Incremental.mk 0 it roots table)) with true.
    cbv iota. apply IH. }
  intros fuel. unfold Incremental.incremental_search, Incremental.run.
  unfold Incremental.init. now rewrite H.
Qed.

(** A quintic with five equally spaced roots is taken for periodic. *)
Example graphical_quintic :
  match Graphical.graphical_method quintic (-3) 3 0.2 with
  | Py.Ok out =>
      Graphical.out_roots out =
        [(-2.079425)%float; (-1.091681)%float; (-0.1)%float;
         0.891681%float; 1.879425%float] /\
      List.length (Graphical.out_table out) = 32%nat /\
      Graphical.is_periodic out = true /\
      Graphical.period out = Some 1%float
  | Py.Raise _ => False
  end.
Proof. vm_compute. repeat split. Qed.

(** ** Floats *)

(** A divisor that passed the [abs(d) < 1e-10] guard is not zero, so
    the division after the guard cannot raise. *)
Lemma guarded_divisor_nonzero (d : float) :
  (abs d <? tiny)%float = false -> (d =? 0)%float = false.
Proof.
  rewrite ltb_spec, abs_spec, eqb_spec.
  change (Prim2SF 0) with (S754_zero false).
  destruct (Prim2SF d) as [sg | sg | | sg m e]; try destruct sg;
    try (intros _; reflexivity); vm_compute; exact (fun h => h).
Qed.

Lemma guarded_div (n d : float) :
  (abs d <? tiny)%float = false -> Py.div n d = Py.Ok (n / d)%float.
Proof.
  intros H. unfold Py.div. now rewrite (guarded_divisor_nonzero d H).
Qed.


Lemma negative_not_positive (p : float) :
  (p <? 0)%float = true -> (0 <? p)%float = false.
Proof.
  rewrite !ltb_spec.
  change (Prim2SF 0) with (S754_zero false).
  destruct (Prim2SF p) as [sg | sg | | sg m e]; try destruct sg; cbn;
    congruence.
Qed.

Lemma SFabs_round_aux (sg : bool) (m e : Z) (l : SpecFloat.location) :
  SFabs (binary_round_aux prec emax sg m e l) = binary_round_aux prec emax false m e l.
Proof.
  unfold binary_round_aux.
  destruct (shr_fexp prec emax m e l) as [mrs' e'].
  destruct (shr_fexp prec emax _ e' loc_Exact) as [mrs'' e''].
  destruct (shr_m mrs''); try reflexivity.
  destruct (e'' <=? emax - prec)%Z; reflexivity.
Qed.

(** [abs(p / q)] is [abs(p) / abs(q)], to the last bit. *)
Lemma abs_div (p q : float) : abs (p / q) = (abs p / abs q)%float.
Proof.
  apply Prim2SF_inj.
  rewrite abs_spec, !div_spec, !abs_spec.
  unfold SF64div, SFdiv.
  destruct (Prim2SF p) as [sp | sp | | sp mp ep];
    destruct (Prim2SF q) as [sq | sq | | sq mq eq]; cbn [SFabs xorb];
    try reflexivity.
  destruct (SFdiv_core_binary prec emax (Z.pos mp) ep (Z.pos mq) eq) as [[m e] l].
  apply SFabs_round_aux.
Qed.

(** ** Lists *)

Lemma set_last_snoc (key : string) (v : value) (table : list record) (d : record) :
  set_last key v (table ++ [d]) = table ++ [set_key key v d].
Proof.
  induction table as [| d0 rest IH]; [reflexivity |].
  cbn [app set_last]. rewrite IH.
  destruct (rest ++ [d]) eqn:E; [| reflexivity].
  destruct rest; discriminate.
Qed.

Lemma length_range (n : Z) : List.length (range n) = Z.to_nat n.
Proof. unfold range. now rewrite length_map, length_seq. Qed.

Lemma range_pos (n : Z) : 0 < n -> exists rest, range n = 0 :: rest.
Proof.
  intros Hn. unfold range.
  destruct (Z.to_nat n) as [| k] eqn:E; [lia |].
  cbn. eauto.
Qed.

(** ** Loops *)

Section LoopRules.
Context {St : Type}.

Lemma for_loop_rule (body : Z -> St -> step St) (Inv Post : St -> Prop) :
  (forall i s s', Inv s -> body i s = Continue s' -> Inv s') ->
  (forall i s s', Inv s -> body i s = Break s' -> Post s') ->
  (forall s, Inv s -> Post s) ->
  forall xs s, Inv s ->
    match for_loop body xs s with
    | Done s' => Post s'
    | Raised _ s' => Inv s'
    end.
Proof.
  intros Hc Hb Hend xs.
  induction xs as [| i rest IH]; intros s Hs; cbn.
  - now apply Hend.
  - destruct (body i s) as [s' | s' | e] eqn:E.
    + apply IH. eapply Hc; eauto.
    + eapply Hb; eauto.
    + exact Hs.
Qed.

(** A loop whose passes each add at most one element to a list adds at
    most as many as it has passes. *)
Lemma for_loop_growth (body : Z -> St -> step St) (size : St -> nat) :
  (forall i s s', body i s = Continue s' \/ body i s = Break s' ->
                  (size s' <= S (size s))%nat) ->
  forall xs s,
    (size (final (for_loop body xs s)) <= size s + List.length xs)%nat.
Proof.
  intros Hstep xs.
  induction xs as [| i rest IH]; intros s; cbn.
  - lia.
  - destruct (body i s) as [s' | s' | e] eqn:E; cbn.
    + specialize (IH s'). specialize (Hstep i s s' (or_introl E)). lia.
    + specialize (Hstep i s s' (or_intror E)). lia.
    + lia.
Qed.

Lemma while_loop_rule (guard : St -> bool) (body : St -> step St)
  (Inv Post : St -> Prop) :
  (forall s s', Inv s -> guard s = true -> body s = Continue s' -> Inv s') ->
  (forall s s', Inv s -> guard s = true -> body s = Break s' -> Post s') ->
  (forall s, Inv s -> guard s = false -> Post s) ->
  forall fuel s o, Inv s ->
    while_loop guard body fuel s = Some o ->
    match o with
    | Done s' => Post s'
    | Raised _ s' => Inv s' /\ guard s' = true
    end.
Proof.
  intros Hc Hb Hend fuel.
  induction fuel as [| n IH]; intros s o Hs; cbn;
    destruct (guard s) eqn:G; try discriminate.
  - intros [= <-]. now apply Hend.
  - destruct (body s) as [s' | s' | e] eqn:E.
    + apply IH. eapply Hc; eauto.
    + intros [= <-]. eapply Hb; eauto.
    + intros [= <-]. now split.
  - intros [= <-]. now apply Hend.
Qed.

(** A loop whose passes never raise ends normally. *)
Lemma for_loop_no_throw (body : Z -> St -> step St) :
  (forall i s e, body i s <> Throw e) ->
  forall xs s, exists s', for_loop body xs s = Done s'.
Proof.
  intros Hb xs.
  induction xs as [| i rest IH]; intros s; cbn; [eauto |].
  destruct (body i s) as [s' | s' | e] eqn:E; eauto.
  now destruct (Hb i s e).
Qed.

(** A property that every pass keeps holds when the loop ends. *)
Lemma for_loop_preserves (body : Z -> St -> step St) (P : St -> Prop) :
  (forall i s s', P s -> body i s = Continue s' \/ body i s = Break s' -> P s') ->
  forall xs s, P s -> P (final (for_loop body xs s)).
Proof.
  intros Hstep xs s Hs.
  pose proof (for_loop_rule body P P
                (fun i s s' H E => Hstep i s s' H (or_introl E))
                (fun i s s' H E => Hstep i s s' H (or_intror E))
                (fun s H => H) xs s Hs) as R.
  now destruct (for_loop body xs s).
Qed.

Lemma while_loop_preserves (guard : St -> bool) (body : St -> step St)
  (P : St -> Prop) :
  (forall s s', P s -> body s = Continue s' \/ body s = Break s' -> P s') ->
  forall fuel s o, P s -> while_loop guard body fuel s = Some o -> P (final o).
Proof.
  intros Hstep fuel s o Hs Hrun.
  pose proof (while_loop_rule guard body P P
                (fun s s' H _ E => Hstep s s' H (or_introl E))
                (fun s s' H _ E => Hstep s s' H (or_intror E))
                (fun s H _ => H) fuel s o Hs Hrun) as R.
  destruct o; cbn; [exact R | exact (proj1 R)].
Qed.

End LoopRules.

(** ** Bisection *)

Module BisectionFacts.
Import Bisection.

(** What one pass does to the counters and the lists. *)
Lemma bisection_body_spec (f : objective) (tol : float) (s s' : state) :
  body f tol s = Continue s' \/ body f tol s = Break s' ->
  exists rec,
    table_data s' = table_data s ++ [rec] /\
    (body f tol s = Continue s' ->
       roots s' = roots s /\ iteration s' = iteration s + 1) /\
    (body f tol s = Break s' ->
       roots s' = roots s ++ [Py.round (midpoint s) 7] /\
       accepted_at f tol s (Py.round (midpoint s) 7)).
Proof.
  unfold body, accepted_at.
  destruct (f (midpoint s)) as [fc | e]; [| intros [H | H]; discriminate].
  destruct (f (a s)) as [fa | e]; [| intros [H | H]; discriminate].
  destruct (f (b s)) as [fb | e]; [| intros [H | H]; discriminate].
  destruct (approx_error (x_old s) (midpoint s)) as [error | e];
    [| intros [H | H]; discriminate].
  destruct ((error <? tol)%float && (1 <? iteration s)) eqn:T1;
    [| destruct (abs fc <? tiny)%float eqn:T2];
    intros [H | H]; try discriminate; injection H as <-; cbn;
    eexists; (split; [reflexivity |]); (split; intros H'); try discriminate.
  all: clear H';
    first [ now (split; reflexivity)
          | split; [reflexivity | exists fc, error; repeat split; auto] ].
Qed.

(** The fuel [max_iter] is enough: the loop always comes to an end. *)
Lemma loop_total (f : objective) (tol : float) (max_iter : Z) :
  forall fuel s,
    (Z.to_nat (max_iter + 1 - iteration s) <= fuel)%nat ->
    exists o, while_loop (guard max_iter) (body f tol) fuel s = Some o.
Proof.
  induction fuel as [| n IH]; intros s Hfuel; cbn;
    destruct (guard max_iter s) eqn:G; eauto.
  - unfold guard in G. apply Z.leb_le in G. lia.
  - destruct (body f tol s) as [s' | s' | e] eqn:E; eauto.
    apply IH.
    destruct (bisection_body_spec f tol s s' (or_introl E)) as (rec & _ & Hc & _).
    destruct (Hc E) as [_ Hit]. rewrite Hit.
    unfold guard in G. apply Z.leb_le in G. lia.
Qed.

Lemma loop_spec (f : objective) (tol : float) (max_iter : Z) (s0 : state) :
  forall fuel s o,
    inv f tol max_iter s0 s ->
    while_loop (guard max_iter) (body f tol) fuel s = Some o ->
    post f tol max_iter s0 (final o).
Proof.
  intros fuel s o Hs Hrun.
  assert (Hinv_post : forall s1, inv f tol max_iter s0 s1 -> post f tol max_iter s0 s1).
  { intros s1 (Hr & Hroots & H1 & Hlen & Hmax). unfold post.
    rewrite Hroots. cbn. split; [lia |]. split; [lia |]. intros r []. }
  assert (R : match o with
              | Done s' => post f tol max_iter s0 s'
              | Raised _ s' => inv f tol max_iter s0 s' /\ guard max_iter s' = true
              end);
    [| destruct o as [s' | e s']; cbn; [exact R | apply Hinv_post, R] ].
  apply (while_loop_rule (guard max_iter) (body f tol)
           (inv f tol max_iter s0) (post f tol max_iter s0)) with (fuel := fuel) (s := s);
    [ | | | exact Hs | exact Hrun ].
  - intros s1 s2 (Hr & Hroots & H1 & Hlen & Hmax) G E.
    destruct (bisection_body_spec f tol s1 s2 (or_introl E)) as (rec & Ht & Hc & _).
    destruct (Hc E) as [Hr2 Hit].
    unfold guard in G. apply Z.leb_le in G.
    repeat split.
    + eapply reached_next; eauto. unfold guard. now apply Z.leb_le.
    + congruence.
    + lia.
    + rewrite Ht, length_app, Hit. cbn. lia.
    + lia.
  - intros s1 s2 (Hr & Hroots & H1 & Hlen & Hmax) G E.
    destruct (bisection_body_spec f tol s1 s2 (or_intror E)) as (rec & Ht & _ & Hb).
    destruct (Hb E) as [Hr2 Hacc].
    pose proof G as G'. unfold guard in G'. apply Z.leb_le in G'.
    repeat split.
    + rewrite Ht, length_app. cbn. lia.
    + rewrite Hr2, Hroots. cbn. lia.
    + intros r Hin. rewrite Hr2, Hroots in Hin. cbn in Hin.
      destruct Hin as [<- | []]. exists s1. auto.
  - intros s1 Hs1 _. now apply Hinv_post.
Qed.

Lemma inv_init (f : objective) (tol : float) (max_iter : Z) (a b : float) :
  inv f tol max_iter (init a b) (init a b).
Proof.
  repeat split; cbn; try lia. constructor.
Qed.

End BisectionFacts.

(** C1: when [f(a)*f(b) > 0], [bisection_method] returns the pair of
    an empty root list and an empty record list.  Nothing but [f(a)]
    and [f(b)] is consulted: no pass of the loop is made. *)
Theorem C1_bisection_same_sign_returns_empty :
  forall (f : objective) (a b tol : float) (max_iter : Z) (ya yb : float),
    f a = Py.Ok ya ->
    f b = Py.Ok yb ->
    (0 <? ya * yb)%float = true ->
    Bisection.bisection_method f a b tol max_iter = Some (Py.Ok ([], [])).
Proof.
  intros f a b tol max_iter ya yb Ha Hb Hsign.
  unfold Bisection.bisection_method. now rewrite Ha, Hb, Hsign.
Qed.

Lemma C1_witness :
  Bisection.bisection_method sq_plus_1 (-1) 1 0.5 50 = Some (Py.Ok ([], [])).
Proof.
  apply (C1_bisection_same_sign_returns_empty sq_plus_1 (-1) 1 0.5 50 2 2);
    reflexivity.
Defined.

(** C8: on a bracket with [f(a)*f(b) < 0] the bisection loop comes to
    an end having appended at most [max_iter] records and at most one
    root; an accepted root is the midpoint [c] of a pass (rounded to 7
    digits) that passed the relative-error test after the first pass, or
    had [abs(f(c)) < 1e-10]; [bisection_method] hands back these lists,
    or the exception that ended the loop. *)
Theorem C8_bisection_bounds :
  forall (f : objective) (a b tol : float) (max_iter : Z) (ya yb : float),
    f a = Py.Ok ya ->
    f b = Py.Ok yb ->
    (ya * yb <? 0)%float = true ->
    exists o,
      Bisection.run f a b tol max_iter = Some o /\
      Bisection.bisection_method f a b tol max_iter =
        Some (match o with
              | Done s => Py.Ok (Bisection.roots s, Bisection.table_data s)
              | Raised e _ => Py.Raise e
              end) /\
      (List.length (Bisection.table_data (final o)) <= Z.to_nat max_iter)%nat /\
      (List.length (Bisection.roots (final o)) <= 1)%nat /\
      forall r, In r (Bisection.roots (final o)) ->
        exists s, Bisection.reached f tol max_iter (Bisection.init a b) s /\
                  Bisection.guard max_iter s = true /\
                  Bisection.accepted_at f tol s r.
Proof.
  intros f a b tol max_iter ya yb Ha Hb Hsign.
  destruct (BisectionFacts.loop_total f tol max_iter (Z.to_nat max_iter)
              (Bisection.init a b)) as [o Ho].
  { cbn. lia. }
  exists o. split; [exact Ho |]. split.
  - unfold Bisection.bisection_method, Bisection.run.
    rewrite Ha, Hb, (negative_not_positive _ Hsign), Ho.
    now destruct o.
  - apply (BisectionFacts.loop_spec f tol max_iter (Bisection.init a b)
             (Z.to_nat max_iter) (Bisection.init a b) o).
    + apply BisectionFacts.inv_init.
    + exact Ho.
Qed.

Lemma C8_witness :
  exists o,
    Bisection.run sq_minus_4 0 10 0.5 50 = Some o /\
    (List.length (Bisection.table_data (final o)) <= 50)%nat /\
    (List.length (Bisection.roots (final o)) <= 1)%nat.
Proof.
  destruct (C8_bisection_bounds sq_minus_4 0 10 0.5 50 (-4) 96
              eq_refl eq_refl eq_refl) as (o & Ho & _ & Ht & Hr & _).
  exists o. repeat split; assumption.
Defined.

(** ** Newton-Raphson and secant *)

Lemma rel_error_newton (x_new x : float) :
  Newton.rel_error x_new x = Py.Ok (relative_error x_new x).
Proof.
  unfold Newton.rel_error, relative_error, Py.div, Py.bind.
  destruct (x_new =? 0)%float; cbn; [reflexivity |].
  now rewrite abs_div.
Qed.

Lemma rel_error_secant (xi_next xi : float) :
  Secant.rel_error xi_next xi = Py.Ok (relative_error xi_next xi).
Proof.
  unfold Secant.rel_error, relative_error, Py.div, Py.bind.
  destruct (xi_next =? 0)%float; cbn; [reflexivity |].
  now rewrite abs_div.
Qed.

Lemma mark_last_snoc (iteration max_iter : Z) (table : list record) (d : record) :
  (if iteration =? max_iter - 1
   then set_last "Status" (VStr "Max iterations reached") (table ++ [d])
   else table ++ [d]) = table ++ [mark_last iteration max_iter d].
Proof.
  unfold mark_last. destruct (iteration =? max_iter - 1); [| reflexivity].
  apply set_last_snoc.
Qed.

Lemma get_mark_last (key : string) (iteration max_iter : Z) (d : record) (v : value) :
  get key d = Some v -> get key (mark_last iteration max_iter d) = Some v.
Proof.
  unfold mark_last, set_key. destruct (iteration =? max_iter - 1); [| easy].
  induction d as [| [k w] rest IH]; cbn; [discriminate |].
  destruct (String.eqb k key); auto.
Qed.

(** One pass of Newton-Raphson with both evaluations done, as an
    equation: nothing in it raises. *)
Lemma newton_body_eq (f df : objective) (tol : float) (max_iter iteration : Z)
  (s : Newton.state) (fx dfx : float) :
  f (Newton.x s) = Py.Ok fx ->
  df (Newton.x s) = Py.Ok dfx ->
  let x := Newton.x s in
  let x_new := (x - fx / dfx)%float in
  let ea := relative_error x_new x in
  let d := Newton.iter_record iteration x x_new ea fx dfx in
  Newton.body f df tol max_iter iteration s =
    if (abs dfx <? tiny)%float then
      Break (Newton.mk x (Newton.roots s)
               (Newton.table_data s ++ [Newton.stall_record iteration x fx dfx]))
    else if (ea <? tol)%float then
      Break (Newton.mk x (Newton.roots s ++ [Py.round x_new 6])
               (Newton.table_data s ++ [d]))
    else
      Continue (Newton.mk x_new (Newton.roots s)
                  (Newton.table_data s ++ [mark_last iteration max_iter d])).
Proof.
  intros Hf Hdf. cbv zeta. unfold Newton.body. rewrite Hf, Hdf.
  destruct (abs dfx <? tiny)%float eqn:G; [reflexivity |].
  rewrite (guarded_div fx dfx G), rel_error_newton.
  destruct (relative_error _ _ <? tol)%float; [reflexivity |].
  now rewrite mark_last_snoc.
Qed.

(** One pass of the secant method with its three evaluations done. *)
Lemma secant_body_eq (f : objective) (tol : float) (max_iter iteration : Z)
  (s : Secant.state) (f_prev f_curr f_next : float) :
  f (Secant.xi_prev s) = Py.Ok f_prev ->
  f (Secant.xi s) = Py.Ok f_curr ->
  (abs (f_curr - f_prev) <? tiny)%float = false ->
  let xi_prev := Secant.xi_prev s in
  let xi := Secant.xi s in
  let xi_next := (xi - f_curr * (xi - xi_prev) / (f_curr - f_prev))%float in
  f xi_next = Py.Ok f_next ->
  let ea := relative_error xi_next xi in
  let d := Secant.iter_record iteration xi_prev xi xi_next ea f_prev f_curr f_next in
  Secant.body f tol max_iter iteration s =
    if (ea <? tol)%float && (abs f_next <? tol)%float then
      Break (Secant.mk xi_prev xi (Secant.roots s ++ [Py.round xi_next 6])
               (Secant.table_data s ++ [d]))
    else
      Continue (Secant.mk xi xi_next (Secant.roots s)
                  (Secant.table_data s ++ [mark_last iteration max_iter d])).
Proof.
  intros Hp Hc G. cbv zeta. intros Hn.
  unfold Secant.body. rewrite Hp, Hc, G, (guarded_div _ _ G), rel_error_secant, Hn.
  unfold Secant.finish. rewrite Hn, mark_last_snoc.
  destruct (relative_error _ _ <? tol)%float; cbn [andb]; [| reflexivity].
  destruct (abs f_next <? tol)%float; reflexivity.
Qed.



(** Reduces the boolean test of an [if] in [H] by computation. *)
Ltac decide_test H :=
  cbv zeta in H;
  match type of H with
  | context [if ?c then _ else _] =>
      let v := eval vm_compute in c in change c with v in H
  end;
  cbv iota in H.


(** C3: a Newton-Raphson pass that finds [|f'(x)| < 1e-10] appends a
    record for that pass and ends the loop, with the roots as they
    were and nothing raised.  Any other pass appends its record, whose
    [xi] is the [x] the pass started from, and then accepts
    [x_new = x - f(x)/f'(x)] (rounded) and stops exactly when
    [ea = |x_new - x|/|x_new|] (0 when [x_new] is 0) is below [tol]:
    otherwise the roots are unchanged and the next pass starts from
    [x_new]. *)
Theorem C3_newton_pass :
  forall (f df : objective) (tol : float) (max_iter iteration : Z)
         (s : Newton.state) (fx dfx : float),
    f (Newton.x s) = Py.Ok fx ->
    df (Newton.x s) = Py.Ok dfx ->
    let x := Newton.x s in
    let x_new := (x - fx / dfx)%float in
    let ea := relative_error x_new x in
    ((abs dfx <? tiny)%float = true ->
     forall rest,
       for_loop (Newton.body f df tol max_iter) (iteration :: rest) s =
         Done (Newton.mk x (Newton.roots s)
                 (Newton.table_data s ++ [Newton.stall_record iteration x fx dfx]))) /\
    ((abs dfx <? tiny)%float = false ->
     exists d,
       get "xi" d = Some (VFloat (Py.round x 6)) /\
       if (ea <? tol)%float then
         Newton.body f df tol max_iter iteration s =
           Break (Newton.mk x (Newton.roots s ++ [Py.round x_new 6])
                    (Newton.table_data s ++ [d]))
       else
         Newton.body f df tol max_iter iteration s =
           Continue (Newton.mk x_new (Newton.roots s) (Newton.table_data s ++ [d]))).
Proof.
  intros f df tol max_iter iteration s fx dfx Hf Hdf. cbv zeta.
  pose proof (newton_body_eq f df tol max_iter iteration s fx dfx Hf Hdf) as E.
  cbv zeta in E.
  split; intros G; rewrite G in E.
  - intros rest. cbn [for_loop]. now rewrite E.
  - destruct (relative_error _ _ <? tol)%float.
    + eexists. split; [| exact E]. reflexivity.
    + eexists. split; [| exact E]. apply get_mark_last. reflexivity.
Qed.

Lemma C3_witness :
  Newton.newton_raphson sq_minus_4 two_x 0 0.001 100 5 =
    Py.Ok ([], [Newton.stall_record 0 0 (-4) 0]) /\
  exists d,
    Newton.body sq_minus_4 two_x 0.001 100 0 (Newton.init 1) =
      Continue (Newton.mk 2.5 [] [d]).
Proof.
  split.
  - pose proof (proj1 (C3_newton_pass sq_minus_4 two_x 0.001 100 0
                         (Newton.init 0) (-4) 0 eq_refl eq_refl) eq_refl) as H.
    destruct (range_pos 100 ltac:(lia)) as [rest Hr].
    unfold Newton.newton_raphson, Newton.run. rewrite Hr, H. reflexivity.
  - destruct (proj2 (C3_newton_pass sq_minus_4 two_x 0.001 100 0
                       (Newton.init 1) (-3) 2 eq_refl eq_refl) eq_refl)
      as (d & _ & H).
    decide_test H. exists d. exact H.
Defined.

(** The arithmetic of a Newton-Raphson or secant pass cannot raise:
    with an objective that always evaluates, no pass does. *)
Lemma newton_body_no_throw (f df : objective) (tol : float) (max_iter : Z) :
  (forall x, exists v, f x = Py.Ok v) ->
  (forall x, exists v, df x = Py.Ok v) ->
  forall i s e, Newton.body f df tol max_iter i s <> Throw e.
Proof.
  intros Hf Hdf i s e.
  destruct (Hf (Newton.x s)) as [fx Hx], (Hdf (Newton.x s)) as [dfx Hdx].
  rewrite (newton_body_eq f df tol max_iter i s fx dfx Hx Hdx). cbv zeta.
  destruct (abs dfx <? tiny)%float; [discriminate |].
  destruct (relative_error _ _ <? tol)%float; discriminate.
Qed.

Lemma secant_body_no_throw (f : objective) (tol : float) (max_iter : Z) :
  (forall x, exists v, f x = Py.Ok v) ->
  forall i s e, Secant.body f tol max_iter i s <> Throw e.
Proof.
  intros Hf i s e.
  destruct (Hf (Secant.xi_prev s)) as [f_prev Hp], (Hf (Secant.xi s)) as [f_curr Hc].
  destruct (abs (f_curr - f_prev) <? tiny)%float eqn:G.
  - unfold Secant.body. rewrite Hp, Hc, G. discriminate.
  - destruct (Hf (Secant.xi s - f_curr * (Secant.xi s - Secant.xi_prev s)
                                 / (f_curr - f_prev))%float) as [f_next Hn].
    rewrite (secant_body_eq f tol max_iter i s f_prev f_curr f_next Hp Hc G Hn).
    cbv zeta.
    destruct ((relative_error _ _ <? tol)%float && (abs f_next <? tol)%float);
      discriminate.
Qed.

(** C7 as stated fails for the secant method: on the constant
    objective [1] the slope is below [1e-10] at the first pass and the
    method returns no record at all, so the condition is recorded
    nowhere. *)
Lemma C7_counterexample_secant_records_nothing :
  Secant.f_slope_is_flat const_one (Secant.init 0.5 5) /\
  ~ has_record (Secant.secant_method const_one 0.5 5 0.001 100).
Proof.
  split.
  - exists 1%float, 1%float. repeat split.
  - intros (roots & table & d & H & Hin).
    vm_compute in H. injection H as <- <-. exact Hin.
Qed.

(** C7, amended: a Newton-Raphson pass with [|f'(x)| < 1e-10] ends
    the loop with one more record, whose [ea] is [None], and a secant
    pass with [|f(x_i) - f(x_{i-1})| < 1e-10] ends the loop leaving
    roots and records as they were; neither raises, and the method
    returns what had been collected.  Nothing in the two methods raises
    but the objective: when it always evaluates, they always return. *)
Theorem C7_singularity_ends_search :
  (forall (f df : objective) (tol : float) (max_iter iteration : Z)
          (s : Newton.state) (fx dfx : float) (rest : list Z),
     f (Newton.x s) = Py.Ok fx ->
     df (Newton.x s) = Py.Ok dfx ->
     (abs dfx <? tiny)%float = true ->
     exists d,
       for_loop (Newton.body f df tol max_iter) (iteration :: rest) s =
         Done (Newton.mk (Newton.x s) (Newton.roots s) (Newton.table_data s ++ [d])) /\
       get "ea" d = Some VNone) /\
  (forall (f : objective) (tol : float) (max_iter iteration : Z)
          (s : Secant.state) (rest : list Z),
     Secant.f_slope_is_flat f s ->
     for_loop (Secant.body f tol max_iter) (iteration :: rest) s = Done s) /\
  (forall (f df : objective) (x0 tol : float) (max_iter num_guesses : Z) (fx dfx : float),
     0 < max_iter ->
     f x0 = Py.Ok fx -> df x0 = Py.Ok dfx -> (abs dfx <? tiny)%float = true ->
     Newton.newton_raphson f df x0 tol max_iter num_guesses =
       Py.Ok ([], [Newton.stall_record 0 x0 fx dfx])) /\
  (forall (f : objective) (x0 x1 tol : float) (max_iter : Z),
     0 < max_iter ->
     Secant.f_slope_is_flat f (Secant.init x0 x1) ->
     Secant.secant_method f x0 x1 tol max_iter = Py.Ok ([], [])) /\
  (forall (f df : objective) (x0 tol : float) (max_iter num_guesses : Z),
     (forall x, exists v, f x = Py.Ok v) ->
     (forall x, exists v, df x = Py.Ok v) ->
     exists roots table,
       Newton.newton_raphson f df x0 tol max_iter num_guesses = Py.Ok (roots, table)) /\
  (forall (f : objective) (x0 x1 tol : float) (max_iter : Z),
     (forall x, exists v, f x = Py.Ok v) ->
     exists roots table,
       Secant.secant_method f x0 x1 tol max_iter = Py.Ok (roots, table)).
Proof.
  assert (N : forall f df tol max_iter iteration s fx dfx rest,
             f (Newton.x s) = Py.Ok fx -> df (Newton.x s) = Py.Ok dfx ->
             (abs dfx <? tiny)%float = true ->
             for_loop (Newton.body f df tol max_iter) (iteration :: rest) s =
               Done (Newton.mk (Newton.x s) (Newton.roots s)
                       (Newton.table_data s ++
                        [Newton.stall_record iteration (Newton.x s) fx dfx]))).
  { intros f df tol max_iter iteration s fx dfx rest Hf Hdf G.
    cbn [for_loop]. unfold Newton.body. now rewrite Hf, Hdf, G. }
  assert (S : forall f tol max_iter iteration s rest,
             Secant.f_slope_is_flat f s ->
             for_loop (Secant.body f tol max_iter) (iteration :: rest) s = Done s).
  { intros f tol max_iter iteration s rest (f_prev & f_curr & Hp & Hc & G).
    cbn [for_loop]. unfold Secant.body. now rewrite Hp, Hc, G. }
  repeat split.
  - intros f df tol max_iter iteration s fx dfx rest Hf Hdf G.
    exists (Newton.stall_record iteration (Newton.x s) fx dfx).
    split; [now apply N | reflexivity].
  - exact S.
  - intros f df x0 tol max_iter num_guesses fx dfx Hmax Hf Hdf G.
    destruct (range_pos max_iter Hmax) as [rest Hr].
    unfold Newton.newton_raphson, Newton.run.
    rewrite Hr, (N f df tol max_iter 0 (Newton.init x0) fx dfx rest Hf Hdf G).
    reflexivity.
  - intros f x0 x1 tol max_iter Hmax Hflat.
    destruct (range_pos max_iter Hmax) as [rest Hr].
    unfold Secant.secant_method, Secant.run.
    rewrite Hr, (S f tol max_iter 0 (Secant.init x0 x1) rest Hflat).
    reflexivity.
  - intros f df x0 tol max_iter num_guesses Hf Hdf.
    destruct (for_loop_no_throw (Newton.body f df tol max_iter)
                (newton_body_no_throw f df tol max_iter Hf Hdf)
                (range max_iter) (Newton.init x0)) as [s' Hs].
    unfold Newton.newton_raphson, Newton.run. rewrite Hs. eauto.
  - intros f x0 x1 tol max_iter Hf.
    destruct (for_loop_no_throw (Secant.body f tol max_iter)
                (secant_body_no_throw f tol max_iter Hf)
                (range max_iter) (Secant.init x0 x1)) as [s' Hs].
    unfold Secant.secant_method, Secant.run. rewrite Hs. eauto.
Qed.

Lemma C7_witness :
  Newton.newton_raphson sq_minus_4 two_x 0 0.001 100 5 =
    Py.Ok ([], [Newton.stall_record 0 0 (-4) 0]) /\
  Secant.secant_method const_one 0.5 5 0.001 100 = Py.Ok ([], []).
Proof.
  destruct C7_singularity_ends_search as (_ & _ & HN & HS & _).
  split.
  - apply HN; [lia | reflexivity | reflexivity | reflexivity].
  - apply HS; [lia |]. exists 1%float, 1%float. repeat split.
Defined.

(** ** Regula falsi *)

Module RegulaFalsiFacts.
Import RegulaFalsi.



(** Every pass that does not raise appends exactly one record. *)
Lemma body_appends (f : objective) (tol x1 x2 : float) (iteration : Z)
  (s s' : state) :
  body f tol x1 x2 iteration s = Continue s' \/
  body f tol x1 x2 iteration s = Break s' ->
  exists d, table_data s' = table_data s ++ [d].
Proof.
  unfold body.
  destruct (Py.div _ _) as [c | e]; [| intros [H | H]; discriminate].
  destruct (f c) as [fc | e]; [| intros [H | H]; discriminate].
  destruct (abs fc <? tol)%float.
  { intros [H | H]; [discriminate | injection H as <-]. cbn. eauto. }
  destruct (fl s * fc <? 0)%float; cbn [left right];
    match goal with |- context [if ?t then _ else _] => destruct t end;
    intros [H | H]; try discriminate; injection H as <-; cbn; eauto.
Qed.

End RegulaFalsiFacts.




(** ** Incremental search *)

Module IncrementalFacts.
Import Incremental.




End IncrementalFacts.



(** ** Graphical method *)

Module GraphicalFacts.
Import Graphical.

Section WithNumPy.
Context {np : NumPy}.

(** What one pass of the scan does: it never stops the loop. *)
Lemma graphical_body_spec (f : objective) (x_vals y_vals : list float) (i : Z) (s : state) :
  (exists e, body f x_vals y_vals i s = Throw e) \/
  exists fx,
    f (at_index x_vals i) = Py.Ok fx /\
    body f x_vals y_vals i s =
      Continue
        (mk (if sign_change y_vals i
             then roots s ++ [around (x_root x_vals y_vals i) 6] else roots s)
            (table_data s ++ [sample_record (at_index x_vals i) fx])
            (if sign_change y_vals i then zero_crossings s ++ [i]
             else zero_crossings s)).
Proof.
  unfold body.
  destruct (f (at_index x_vals i)) as [fx | e]; [right | left; eauto].
  exists fx. split; [reflexivity |].
  destruct (sign_change y_vals i); reflexivity.
Qed.

(** The crossings collected by the scan are the indices at which a
    sign change is found, in order, and there is one record per index. *)
Lemma scan_spec (f : objective) (x_vals y_vals : list float) :
  forall xs s s',
    for_loop (body f x_vals y_vals) xs s = Done s' ->
    zero_crossings s' = zero_crossings s ++ filter (sign_change y_vals) xs /\
    List.length (table_data s') = (List.length (table_data s) + List.length xs)%nat.
Proof.
  induction xs as [| i rest IH]; intros s s'; cbn [for_loop].
  - intros [= <-]. cbn. rewrite app_nil_r. split; [reflexivity | lia].
  - destruct (graphical_body_spec f x_vals y_vals i s) as [[e E] | (fx & _ & E)];
      rewrite E; [discriminate |].
    intros H. destruct (IH _ _ H) as [Hz Ht]. cbn in Hz, Ht.
    rewrite Hz, Ht, length_app. cbn [filter List.length].
    destruct (sign_change y_vals i); rewrite <- ?app_assoc; cbn; split;
      try reflexivity; lia.
Qed.

End WithNumPy.

End GraphicalFacts.

(** C5: when [graphical_method] returns, with [zc] the grid indices
    at which the scan found a sign change and [gaps] the differences of
    consecutive ones, [is_periodic] is [True] exactly when [zc] has at
    least 5 indices and [std(gaps) < mean(gaps) * 0.1].  In that case
    [period] is [mean(gaps) * step] and the table is the scan's table
    followed by one record that carries the period in place of a sample;
    otherwise [period] is [None] and the table is the scan's. *)
Theorem C5_graphical_periodicity :
  forall (np : NumPy) (f : objective) (x_min x_max step : float)
         (out : Graphical.output),
    Graphical.graphical_method f x_min x_max step = Py.Ok out ->
    exists x_vals y_vals s,
      arange x_min (x_max + step / 2)%float step = Py.Ok x_vals /\
      vectorized f x_vals = Py.Ok y_vals /\
      Graphical.scan f x_vals y_vals = Done s /\
      Graphical.zero_crossings s =
        filter (Graphical.sign_change y_vals) (range (Z.of_nat (List.length x_vals))) /\
      List.length (Graphical.table_data s) = List.length x_vals /\
      Graphical.out_roots out = Graphical.roots s /\
      let gaps := diff (Graphical.zero_crossings s) in
      let p := (mean gaps * step)%float in
      (Graphical.is_periodic out = true <->
       (5 <= List.length (Graphical.zero_crossings s))%nat /\
       (std gaps <? mean gaps * 0.1)%float = true) /\
      (Graphical.is_periodic out = true ->
       Graphical.period out = Some p /\
       Graphical.out_table out =
         Graphical.table_data s ++
         [[("x", VStr "Period"); ("f(x)", VFormat "{period:.6f}" [p])]%string]) /\
      (Graphical.is_periodic out = false ->
       Graphical.period out = None /\
       Graphical.out_table out = Graphical.table_data s).
Proof.
  intros np f x_min x_max step out.
  unfold Graphical.graphical_method.
  destruct (step <=? 0)%float; [discriminate |].
  destruct (arange _ _ _) as [x_vals | e] eqn:Ha; [| discriminate]. cbn [Py.bind].
  destruct (vectorized f x_vals) as [y_vals | e] eqn:Hv; [| discriminate].
  cbn [Py.bind].
  destruct (Graphical.scan f x_vals y_vals) as [s | e s] eqn:Hscan; [| discriminate].
  intros [= <-].
  exists x_vals, y_vals, s.
  destruct (GraphicalFacts.scan_spec f x_vals y_vals _ _ _ Hscan) as [Hz Ht].
  cbn in Hz, Ht. rewrite length_range, Nat2Z.id in Ht.
  repeat (split; [first [reflexivity | assumption] |]).
  split; [unfold Graphical.conclude;
          destruct (Graphical.looks_periodic (Graphical.zero_crossings s));
          reflexivity |].
  cbv zeta. unfold Graphical.conclude, Graphical.looks_periodic.
  destruct (4 <? Z.of_nat (List.length (Graphical.zero_crossings s))) eqn:N;
    [apply Z.ltb_lt in N | apply Z.ltb_ge in N]; cbn [andb].
  - destruct (std (diff (Graphical.zero_crossings s))
              <? mean (diff (Graphical.zero_crossings s)) * 0.1)%float eqn:T; cbn.
    + repeat split; auto; try lia; discriminate.
    + repeat split; auto; try discriminate. intros [_ H]. discriminate.
  - cbn. repeat split; auto; try discriminate. intros [H _]. lia.
Qed.

Lemma C5_witness :
  exists out x_vals y_vals s,
    Graphical.graphical_method quintic (-3) 3 0.2 = Py.Ok out /\
    Graphical.scan quintic x_vals y_vals = Done s /\
    Graphical.zero_crossings s = [5; 10; 15; 20; 25] /\
    Graphical.is_periodic out = true /\
    Graphical.period out = Some (mean (diff (Graphical.zero_crossings s)) * 0.2)%float.
Proof.
  pose (out := match Graphical.graphical_method quintic (-3) 3 0.2 with
               | Py.Ok o => o
               | Py.Raise _ => Graphical.mk_output [] [] false None
               end).
  assert (E : Graphical.graphical_method quintic (-3) 3 0.2 = Py.Ok out)
    by (vm_compute; reflexivity).
  destruct (C5_graphical_periodicity NumPyModel.numpy64 quintic (-3) 3 0.2 out E)
    as (x_vals & y_vals & s & Ha & Hv & Hs & Hz & _ & _ & _ & Hp & _).
  exists out, x_vals, y_vals, s.
  assert (P : Graphical.is_periodic out = true) by (vm_compute; reflexivity).
  split; [exact E |]. split; [exact Hs |]. split; [| split; [exact P |]].
  - rewrite Hz. vm_compute in Ha. injection Ha as <-.
    vm_compute in Hv. injection Hv as <-. vm_compute. reflexivity.
  - exact (proj1 (Hp P)).
Defined.

(** ** Roots and their records *)

Lemma paired_length (accepts : float -> Prop) (roots roots' : list float)
  (table table' : list record) :
  paired accepts roots table roots' table' ->
  (List.length roots <= List.length table)%nat ->
  (List.length roots' <= List.length table')%nat.
Proof.
  intros [[-> (l & -> & _)] | (r & d & -> & -> & _)] H;
    rewrite !length_app; cbn; lia.
Qed.

Lemma paired_one_record (accepts : float -> Prop) (roots roots' : list float)
  (table table' : list record) :
  paired accepts roots table roots' table' ->
  (List.length table' <= S (List.length table))%nat.
Proof.
  intros [[_ (l & -> & Hl)] | (r & d & _ & -> & _)];
    rewrite !length_app; cbn; lia.
Qed.

Ltac no_root :=
  left; split; [reflexivity | eexists; split; [reflexivity | cbn; lia]].

Lemma bisection_paired (f : objective) (tol : float) (s s' : Bisection.state) :
  Bisection.body f tol s = Continue s' \/ Bisection.body f tol s = Break s' ->
  paired (Bisection.accepted_at f tol s)
    (Bisection.roots s) (Bisection.table_data s)
    (Bisection.roots s') (Bisection.table_data s').
Proof.
  intros H.
  destruct (BisectionFacts.bisection_body_spec f tol s s' H) as (d & Ht & Hc & Hb).
  destruct H as [H | H].
  - destruct (Hc H) as [Hr _]. left. split; [exact Hr |].
    exists [d]. split; [exact Ht | cbn; lia].
  - destruct (Hb H) as [Hr Hacc]. right. eauto.
Qed.

Lemma newton_paired (f df : objective) (tol : float) (max_iter i : Z)
  (s s' : Newton.state) :
  Newton.body f df tol max_iter i s = Continue s' \/
  Newton.body f df tol max_iter i s = Break s' ->
  paired (Newton.accepted_at f df tol s)
    (Newton.roots s) (Newton.table_data s)
    (Newton.roots s') (Newton.table_data s') /\
  Newton.table_data s' <> [].
Proof.
  destruct (f (Newton.x s)) as [fx | e] eqn:Hf;
    [| unfold Newton.body; rewrite Hf; intros [H | H]; discriminate].
  destruct (df (Newton.x s)) as [dfx | e] eqn:Hdf;
    [| unfold Newton.body; rewrite Hf, Hdf; intros [H | H]; discriminate].
  rewrite (newton_body_eq f df tol max_iter i s fx dfx Hf Hdf). cbv zeta.
  destruct (abs dfx <? tiny)%float eqn:G;
    [| destruct (relative_error _ _ <? tol)%float eqn:T];
    intros [H | H]; try discriminate; injection H as <-; cbn;
    (split; [| now destruct (Newton.table_data s)]).
  - no_root.
  - right. do 2 eexists. repeat split.
    exists fx, dfx. cbv zeta. auto.
  - no_root.
Qed.

Lemma secant_paired (f : objective) (tol : float) (max_iter i : Z)
  (s s' : Secant.state) :
  Secant.body f tol max_iter i s = Continue s' \/
  Secant.body f tol max_iter i s = Break s' ->
  paired (Secant.accepted_at f tol s)
    (Secant.roots s) (Secant.table_data s)
    (Secant.roots s') (Secant.table_data s').
Proof.
  destruct (f (Secant.xi_prev s)) as [f_prev | e] eqn:Hp;
    [| unfold Secant.body; rewrite Hp; intros [H | H]; discriminate].
  destruct (f (Secant.xi s)) as [f_curr | e] eqn:Hc;
    [| unfold Secant.body; rewrite Hp, Hc; intros [H | H]; discriminate].
  destruct (abs (f_curr - f_prev) <? tiny)%float eqn:G.
  { unfold Secant.body. rewrite Hp, Hc, G.
    intros [H | H]; [discriminate | injection H as <-].
    left. split; [reflexivity |]. exists [].
    split; [now rewrite app_nil_r | cbn; lia]. }
  destruct (f (Secant.xi s - f_curr * (Secant.xi s - Secant.xi_prev s)
                             / (f_curr - f_prev))%float) as [f_next | e] eqn:Hn.
  - rewrite (secant_body_eq f tol max_iter i s f_prev f_curr f_next Hp Hc G Hn).
    cbv zeta.
    destruct (relative_error _ _ <? tol)%float eqn:T1;
      [destruct (abs f_next <? tol)%float eqn:T2 |]; cbn [andb];
      intros [H | H]; try discriminate; injection H as <-; cbn; try no_root.
    right. do 2 eexists. repeat split.
    exists f_prev, f_curr, f_next. cbv zeta. auto 10.
  - unfold Secant.body.
    rewrite Hp, Hc, G, (guarded_div _ _ G), rel_error_secant, Hn.
    intros [H | H]; discriminate.
Qed.


Lemma incremental_paired (f : objective) (step : float) (s : Incremental.state) :
  paired (fun _ => Incremental.detected_at f step s)
    (Incremental.roots s) (Incremental.table_data s)
    (Incremental.roots (Incremental.body f step s))
    (Incremental.table_data (Incremental.body f step s)).
Proof.
  unfold Incremental.body, Incremental.samples.
  destruct (f (Incremental.x s)) as [fx | e] eqn:Hx; cbn [Py.bind]; [| no_root].
  destruct (f (Incremental.x s + step)%float) as [fx_next | e] eqn:Hn;
    cbn [Py.bind]; [| no_root].
  cbn [Incremental.roots Incremental.table_data].
  unfold Incremental.attempt.
  destruct (Incremental.product_of fx fx_next) as [p |] eqn:P; [| no_root].
  destruct (p <=? 0)%float eqn:T; [| no_root].
  destruct (Incremental.estimate _ _ _ _ _) as [root | e]; [| no_root].
  destruct (negb (Incremental.not_finite root)); [| no_root].
  right. do 2 eexists. repeat split.
  exists fx, fx_next, p. auto.
Qed.


(** *** The returned lists *)

Lemma covered_nil : covered [] [].
Proof. unfold covered. cbn. lia. Qed.

Lemma bisection_covered (f : objective) (a b tol : float) (max_iter : Z)
  (roots : list float) (table : list record) :
  Bisection.bisection_method f a b tol max_iter = Some (Py.Ok (roots, table)) ->
  covered roots table.
Proof.
  unfold Bisection.bisection_method, Bisection.run.
  destruct (f a) as [ya | e]; [| discriminate].
  destruct (f b) as [yb | e]; [| discriminate].
  destruct (0 <? ya * yb)%float.
  { intros [= <- <-]. apply covered_nil. }
  destruct (while_loop _ _ _ _) as [o |] eqn:E; [| discriminate].
  assert (R : covered (Bisection.roots (final o)) (Bisection.table_data (final o))).
  { apply (while_loop_preserves (Bisection.guard max_iter) (Bisection.body f tol)
             (fun s => covered (Bisection.roots s) (Bisection.table_data s)))
      with (fuel := Z.to_nat max_iter) (s := Bisection.init a b);
      [| apply covered_nil | exact E].
    intros s s' Hs H. exact (paired_length _ _ _ _ _ (bisection_paired f tol s s' H) Hs). }
  destruct o as [s | e s]; [| discriminate].
  intros [= <- <-]. exact R.
Qed.


Lemma secant_covered (f : objective) (x0 x1 tol : float) (max_iter : Z)
  (roots : list float) (table : list record) :
  Secant.secant_method f x0 x1 tol max_iter = Py.Ok (roots, table) ->
  covered roots table.
Proof.
  unfold Secant.secant_method, Secant.run.
  assert (R := for_loop_preserves (Secant.body f tol max_iter)
                 (fun s => covered (Secant.roots s) (Secant.table_data s))
                 (fun i s s' Hs H => paired_length _ _ _ _ _
                    (secant_paired f tol max_iter i s s' H) Hs)
                 (range max_iter) (Secant.init x0 x1) covered_nil).
  destruct (for_loop _ _ _) as [s | e s]; [| discriminate].
  intros [= <- <-]. exact R.
Qed.


Lemma incremental_covered (f : objective) (a b step : float) (fuel : nat)
  (roots : list float) (table : list record) :
  Incremental.incremental_search f a b step fuel = Some (Py.Ok (roots, table)) ->
  covered roots table.
Proof.
  unfold Incremental.incremental_search, Incremental.run, Incremental.loop.
  destruct (while_loop _ _ _ _) as [o |] eqn:E; [| discriminate].
  assert (R : covered (Incremental.roots (final o)) (Incremental.table_data (final o))).
  { apply (while_loop_preserves (Incremental.guard b)
             (fun s => Continue (Incremental.body f step s))
             (fun s => covered (Incremental.roots s) (Incremental.table_data s)))
      with (fuel := fuel) (s := Incremental.init a);
      [| apply covered_nil | exact E].
    intros s s' Hs [H | H]; [injection H as <- | discriminate].
    exact (paired_length _ _ _ _ _ (incremental_paired f step s) Hs). }
  destruct o as [s | e s]; [| discriminate].
  intros [= <- <-]. exact R.
Qed.





(** What a Newton-Raphson pass can do to the root list. *)
Lemma newton_body_roots (f df : objective) (tol : float) (max_iter i : Z)
  (s s' : Newton.state) :
  (Newton.body f df tol max_iter i s = Continue s' ->
   Newton.roots s' = Newton.roots s) /\
  (Newton.body f df tol max_iter i s = Break s' ->
   (List.length (Newton.roots s') <= S (List.length (Newton.roots s)))%nat).
Proof.
  destruct (f (Newton.x s)) as [fx | e] eqn:Hf;
    [| unfold Newton.body; rewrite Hf; split; discriminate].
  destruct (df (Newton.x s)) as [dfx | e] eqn:Hdf;
    [| unfold Newton.body; rewrite Hf, Hdf; split; discriminate].
  rewrite (newton_body_eq f df tol max_iter i s fx dfx Hf Hdf). cbv zeta.
  destruct (abs dfx <? tiny)%float;
    [| destruct (relative_error _ _ <? tol)%float];
    split; intros H; try discriminate; injection H as <-; cbn;
    rewrite ?length_app; cbn; try reflexivity; lia.
Qed.

(** C10: [newton_raphson] gives the same result for any two values of
    [num_guesses], which it never reads; and whatever that value, the
    run is one trajectory from [x0]: it returns at most one root and at
    most [max_iter] records. *)
Theorem C10_newton_num_guesses_unused :
  (forall (f df : objective) (x0 tol : float) (max_iter n1 n2 : Z),
     Newton.newton_raphson f df x0 tol max_iter n1 =
     Newton.newton_raphson f df x0 tol max_iter n2) /\
  (forall (f df : objective) (x0 tol : float) (max_iter num_guesses : Z)
          (roots : list float) (table : list record),
     Newton.newton_raphson f df x0 tol max_iter num_guesses = Py.Ok (roots, table) ->
     (List.length roots <= 1)%nat /\
     (List.length table <= Z.to_nat max_iter)%nat).
Proof.
  split; [reflexivity |].
  intros f df x0 tol max_iter num_guesses roots table.
  unfold Newton.newton_raphson, Newton.run.
  assert (Hr : match for_loop (Newton.body f df tol max_iter)
                       (range max_iter) (Newton.init x0) with
               | Done s' => (List.length (Newton.roots s') <= 1)%nat
               | Raised _ s' => Newton.roots s' = []
               end).
  { apply (for_loop_rule (Newton.body f df tol max_iter)
             (fun s => Newton.roots s = [])
             (fun s => (List.length (Newton.roots s) <= 1)%nat)).
    - intros i s s' Hs E.
      now rewrite (proj1 (newton_body_roots f df tol max_iter i s s') E).
    - intros i s s' Hs E.
      pose proof (proj2 (newton_body_roots f df tol max_iter i s s') E) as H.
      rewrite Hs in H. exact H.
    - intros s Hs. rewrite Hs. cbn. lia.
    - reflexivity. }
  assert (Ht := for_loop_growth (Newton.body f df tol max_iter)
                  (fun s => List.length (Newton.table_data s))
                  (fun i s s' H => paired_one_record _ _ _ _ _
                     (proj1 (newton_paired f df tol max_iter i s s' H)))
                  (range max_iter) (Newton.init x0)).
  rewrite length_range in Ht. cbn in Ht.
  destruct (for_loop _ _ _) as [s | e s]; [| discriminate].
  intros [= <- <-]. cbn in Ht. split; assumption.
Qed.

Lemma C10_witness :
  (List.length (@nil float) <= 1)%nat /\
  (List.length [Newton.stall_record 0 0 (-4) 0] <= Z.to_nat 100)%nat.
Proof.
  exact (proj2 C10_newton_num_guesses_unused sq_minus_4 two_x 0%float 0.001%float
           100 5 [] [Newton.stall_record 0 0 (-4) 0] eq_refl).
Defined.

(** * Further properties *)

(** ** More on floats *)

Lemma eqb_zero_spec (p : float) :
  (p =? 0)%float = true <-> exists sg, Prim2SF p = S754_zero sg.
Proof.
  rewrite eqb_spec. change (Prim2SF 0) with (S754_zero false).
  destruct (Prim2SF p) as [sg | sg | | sg m e]; try destruct sg; cbn;
    split; try discriminate; eauto; intros [sg' H]; discriminate.
Qed.

Lemma is_finite_spec (y : float) :
  is_finite y = true <->
  (exists sg, Prim2SF y = S754_zero sg) \/
  (exists sg m e, Prim2SF y = S754_finite sg m e).
Proof.
  unfold is_finite, is_nan, is_infinity.
  rewrite !eqb_spec, abs_spec.
  change (Prim2SF infinity) with (S754_infinity false).
  destruct (Prim2SF y) as [sg | sg | | sg m e]; try destruct sg; cbn;
    rewrite ?Z.compare_refl, ?Pos.compare_cont_refl; cbn.
  all: split; [intros H | intros [[sg' H] | (sg' & m' & e' & H)]];
    try discriminate; eauto 6.
Qed.

(** An exact zero times a finite number is an exact zero. *)
Lemma zero_mul_finite (y1 y2 : float) :
  (y1 =? 0)%float = true -> is_finite y2 = true ->
  (y1 * y2 =? 0)%float = true /\ (y2 * y1 =? 0)%float = true.
Proof.
  rewrite !eqb_zero_spec, is_finite_spec, !mul_spec.
  intros [s1 ->] [[s2 ->] | (s2 & m & e & ->)]; cbn; eauto.
Qed.

(** How a zero of either sign compares. *)
Lemma zero_compare (p : float) :
  (p =? 0)%float = true ->
  (0 <=? p)%float = true /\ (p <=? 0)%float = true /\
  (0 <? p)%float = false /\ (p <? 0)%float = false /\
  (abs p <? tiny)%float = true.
Proof.
  rewrite eqb_zero_spec, !leb_spec, !ltb_spec, abs_spec.
  change (Prim2SF 0) with (S754_zero false).
  intros [sg ->]. destruct sg; cbn; repeat split; vm_compute; reflexivity.
Qed.

Lemma finite_sub_self (v : float) :
  is_finite v = true -> (v - v =? 0)%float = true.
Proof.
  rewrite eqb_zero_spec, is_finite_spec, sub_spec.
  intros [[sg ->] | (sg & m & e & ->)].
  - destruct sg; cbn; eauto.
  - unfold SF64sub, SFsub. rewrite Z.sub_diag. cbn. eauto.
Qed.

Lemma zero_sub_zero (z1 z2 : float) :
  (z1 =? 0)%float = true -> (z2 =? 0)%float = true ->
  (z2 - z1 =? 0)%float = true.
Proof.
  rewrite !eqb_zero_spec, sub_spec.
  intros [s1 ->] [s2 ->]. destruct s1, s2; cbn; eauto.
Qed.

Lemma zero_div_zero (p q : float) :
  (p =? 0)%float = true -> (q =? 0)%float = true -> (p / q)%float = nan.
Proof.
  rewrite !eqb_zero_spec. intros [s1 Hp] [s2 Hq].
  apply Prim2SF_inj. rewrite div_spec, Hp, Hq. reflexivity.
Qed.

Lemma sub_nan (x : float) : (x - nan)%float = nan.
Proof.
  apply Prim2SF_inj. rewrite sub_spec.
  change (Prim2SF nan) with S754_nan.
  now destruct (Prim2SF x).
Qed.

(** ** More on tables *)

Lemma numbered_nil (key : string) (start : Z) : numbered key start [].
Proof. intros k d H. destruct k; discriminate. Qed.

Lemma numbered_snoc (key : string) (start : Z) (table : list record) (d : record) :
  numbered key start table ->
  get key d = Some (VInt (start + Z.of_nat (List.length table))) ->
  numbered key start (table ++ [d]).
Proof.
  intros Ht Hd k d' Hk.
  destruct (Nat.lt_ge_cases k (List.length table)) as [Hlt | Hge].
  - rewrite nth_error_app1 in Hk by exact Hlt. now apply Ht.
  - rewrite nth_error_app2 in Hk by exact Hge.
    destruct (k - List.length table)%nat as [| j] eqn:E; cbn in Hk.
    + injection Hk as <-. replace k with (List.length table) by lia. exact Hd.
    + destruct j; discriminate.
Qed.

(** ** Bisection, further *)

(** A state in which the loop starts a pass ends the run the way the
    whole loop ends. *)
Lemma bisection_reached_outcome (f : objective) (tol : float) (max_iter : Z)
  (s0 s : Bisection.state) :
  Bisection.reached f tol max_iter s0 s ->
  forall fuel o,
    while_loop (Bisection.guard max_iter) (Bisection.body f tol) fuel s0 = Some o ->
    exists fuel',
      while_loop (Bisection.guard max_iter) (Bisection.body f tol) fuel' s = Some o.
Proof.
  induction 1 as [| s s' Hr IH G E]; intros fuel o Hrun; [eauto |].
  destruct (IH fuel o Hrun) as [fuel' H'].
  destruct fuel' as [| n]; cbn [while_loop] in H'; rewrite G in H'; [discriminate |].
  rewrite E in H'. eauto.
Qed.

(** The pass that finds a midpoint [0.0] after the first pass raises. *)
Lemma bisection_zero_midpoint_throws (f : objective) (tol : float)
  (s : Bisection.state) (xo fc fa fb : float) :
  Bisection.x_old s = Some xo ->
  (Bisection.midpoint s =? 0)%float = true ->
  f (Bisection.midpoint s) = Py.Ok fc ->
  f (Bisection.a s) = Py.Ok fa ->
  f (Bisection.b s) = Py.Ok fb ->
  Bisection.body f tol s = Throw Py.ZeroDivisionError.
Proof.
  intros Hx Hz Hc Ha Hb. unfold Bisection.body.
  rewrite Hc, Ha, Hb, Hx. unfold Bisection.approx_error, Py.div.
  now rewrite Hz.
Qed.

(** X1: when a bisection run on a bracket comes to a pass, other than
    the first, whose midpoint is exactly [0.0], [bisection_method] raises
    [ZeroDivisionError]: the relative error divides by the midpoint. *)
Theorem X1_bisection_zero_midpoint_raises :
  forall (f : objective) (a b tol : float) (max_iter : Z) (ya yb : float)
         (s : Bisection.state) (xo fc fa fb : float),
    f a = Py.Ok ya ->
    f b = Py.Ok yb ->
    (0 <? ya * yb)%float = false ->
    Bisection.reached f tol max_iter (Bisection.init a b) s ->
    Bisection.guard max_iter s = true ->
    Bisection.x_old s = Some xo ->
    (Bisection.midpoint s =? 0)%float = true ->
    f (Bisection.midpoint s) = Py.Ok fc ->
    f (Bisection.a s) = Py.Ok fa ->
    f (Bisection.b s) = Py.Ok fb ->
    Bisection.bisection_method f a b tol max_iter = Some (Py.Raise Py.ZeroDivisionError).
Proof.
  intros f a b tol max_iter ya yb s xo fc fa fb Hya Hyb Hsign Hr G Hx Hz Hc Ha Hb.
  destruct (BisectionFacts.loop_total f tol max_iter (Z.to_nat max_iter)
              (Bisection.init a b)) as [o Ho]; [cbn; lia |].
  destruct (bisection_reached_outcome f tol max_iter _ _ Hr _ _ Ho) as [fuel' H'].
  pose proof (bisection_zero_midpoint_throws f tol s xo fc fa fb Hx Hz Hc Ha Hb) as E.
  destruct fuel' as [| n]; cbn [while_loop] in H'; rewrite G in H'; [discriminate |].
  rewrite E in H'. injection H' as <-.
  unfold Bisection.bisection_method, Bisection.run.
  now rewrite Hya, Hyb, Hsign, Ho.
Qed.

Lemma X1_witness :
  Bisection.bisection_method shifted_line (-3) 1 0.5 50
  = Some (Py.Raise Py.ZeroDivisionError).
Proof.
  pose (s1 := match Bisection.body shifted_line 0.5 (Bisection.init (-3) 1) with
              | Continue s => s
              | _ => Bisection.init (-3) 1
              end).
  apply (X1_bisection_zero_midpoint_raises shifted_line (-3) 1 0.5 50
           (-3.5) 0.5 s1 (-1) (-0.5) (-1.5) 0.5); try reflexivity.
  apply (Bisection.reached_next _ _ _ _ (Bisection.init (-3) 1) s1).
  - apply Bisection.reached_first.
  - reflexivity.
  - vm_compute. reflexivity.
Defined.

(** The record of a bisection pass. *)
Lemma bisection_body_record (f : objective) (tol : float) (s s' : Bisection.state) :
  Bisection.body f tol s = Continue s' \/ Bisection.body f tol s = Break s' ->
  exists d,
    Bisection.table_data s' = Bisection.table_data s ++ [d] /\
    get "Iteration" d = Some (VInt (Bisection.iteration s)) /\
    bisection_labelled d /\
    (Bisection.body f tol s = Continue s' ->
     Bisection.iteration s' = Bisection.iteration s + 1).
Proof.
  unfold Bisection.body, bisection_labelled.
  destruct (f (Bisection.midpoint s)) as [fc | e]; [| intros [H | H]; discriminate].
  destruct (f (Bisection.a s)) as [fa | e]; [| intros [H | H]; discriminate].
  destruct (f (Bisection.b s)) as [fb | e]; [| intros [H | H]; discriminate].
  destruct (Bisection.approx_error _ _) as [error | e];
    [| intros [H | H]; discriminate].
  destruct ((error <? tol)%float && (1 <? Bisection.iteration s));
    [| destruct (abs fc <? tiny)%float];
    intros [H | H]; try discriminate; injection H as <-;
    cbn [Bisection.table_data Bisection.iteration];
    eexists; (split; [reflexivity |]); (split; [reflexivity |]);
    (split; [| first [reflexivity | intros; discriminate]]);
    destruct (fa * fc <? 0)%float; [left | right | left | right | left | right];
    split; reflexivity.
Qed.

(** X2: in the table [bisection_method] returns, the records are
    numbered 1, 2, ... under [Iteration], and each is labelled
    ["1st subinterval"] or ["2nd subinterval"]; since the bounds are
    recorded after narrowing, the midpoint column [xr] always repeats
    [xu] (first half kept) or [xl] (second half kept). *)
Theorem X2_bisection_table_shape :
  forall (f : objective) (a b tol : float) (max_iter : Z)
         (roots : list float) (table : list record),
    Bisection.bisection_method f a b tol max_iter = Some (Py.Ok (roots, table)) ->
    numbered "Iteration" 1 table /\
    forall d, In d table -> bisection_labelled d.
Proof.
  intros f a b tol max_iter roots table.
  unfold Bisection.bisection_method, Bisection.run.
  destruct (f a) as [ya | e]; [| discriminate].
  destruct (f b) as [yb | e]; [| discriminate].
  destruct (0 <? ya * yb)%float.
  { intros [= <- <-]. split; [apply numbered_nil | intros d []]. }
  destruct (while_loop _ _ _ _) as [o |] eqn:E; [| discriminate].
  set (shape := fun s : Bisection.state =>
         numbered "Iteration" 1 (Bisection.table_data s) /\
         forall d, In d (Bisection.table_data s) -> bisection_labelled d).
  assert (Hstep : forall s s',
            shape s ->
            Z.of_nat (List.length (Bisection.table_data s)) = Bisection.iteration s - 1 ->
            Bisection.body f tol s = Continue s' \/ Bisection.body f tol s = Break s' ->
            shape s' /\
            (Bisection.body f tol s = Continue s' ->
             Z.of_nat (List.length (Bisection.table_data s')) = Bisection.iteration s' - 1)).
  { intros s s' [Hn Hl] Hlen H. unfold shape.
    destruct (bisection_body_record f tol s s' H) as (d & Ht & Hi & Hd & Hc).
    rewrite Ht. split; [split |].
    - apply numbered_snoc; [exact Hn |]. rewrite Hi. do 2 f_equal. lia.
    - intros d' Hin. apply in_app_or in Hin. destruct Hin as [Hin | [<- | []]]; auto.
    - intros Hcont. rewrite length_app, (Hc Hcont). cbn. lia. }
  assert (R : match o with
              | Done s' => shape s'
              | Raised _ s' =>
                  (shape s' /\
                   Z.of_nat (List.length (Bisection.table_data s')) =
                   Bisection.iteration s' - 1) /\
                  Bisection.guard max_iter s' = true
              end).
  { apply (while_loop_rule (Bisection.guard max_iter) (Bisection.body f tol)
             (fun s => shape s /\
                Z.of_nat (List.length (Bisection.table_data s)) = Bisection.iteration s - 1)
             shape) with (fuel := Z.to_nat max_iter) (s := Bisection.init a b);
      [ | | | | exact E].
    - intros s s' [Hs Hlen] _ Hb.
      destruct (Hstep s s' Hs Hlen (or_introl Hb)) as [Hs' Hlen']. auto.
    - intros s s' [Hs Hlen] _ Hb.
      exact (proj1 (Hstep s s' Hs Hlen (or_intror Hb))).
    - intros s [Hs _] _. exact Hs.
    - split; [split; [apply numbered_nil | intros d []] | reflexivity]. }
  destruct o as [s | e s]; [| discriminate].
  intros [= <- <-]. exact R.
Qed.

Lemma X2_witness :
  exists roots table,
    Bisection.bisection_method sq_minus_4 0 5 0.001 50 = Some (Py.Ok (roots, table)) /\
    table <> [] /\
    numbered "Iteration" 1 table /\
    forall d, In d table -> bisection_labelled d.
Proof.
  pose (r := match Bisection.bisection_method sq_minus_4 0 5 0.001 50 with
             | Some (Py.Ok r) => r
             | _ => ([], [])
             end).
  assert (E : Bisection.bisection_method sq_minus_4 0 5 0.001 50 =
              Some (Py.Ok (fst r, snd r))) by (vm_compute; reflexivity).
  exists (fst r), (snd r).
  split; [exact E |]. split; [vm_compute; discriminate |].
  exact (X2_bisection_table_shape sq_minus_4 0 5 0.001 50 (fst r) (snd r) E).
Defined.

(** X3: [bisection_method] returns an empty table exactly when the
    ends have the same sign ([f(a)*f(b) > 0]) or [max_iter] allows no
    pass; the roots are then empty too. *)
Theorem X3_bisection_empty_table :
  forall (f : objective) (a b tol : float) (max_iter : Z) (ya yb : float)
         (roots : list float) (table : list record),
    f a = Py.Ok ya ->
    f b = Py.Ok yb ->
    Bisection.bisection_method f a b tol max_iter = Some (Py.Ok (roots, table)) ->
    (table = [] <-> (0 <? ya * yb)%float = true \/ max_iter <= 0) /\
    (table = [] -> roots = []).
Proof.
  intros f a b tol max_iter ya yb roots table Ha Hb Hrun.
  split.
  - revert Hrun. unfold Bisection.bisection_method, Bisection.run.
    rewrite Ha, Hb.
    destruct (0 <? ya * yb)%float.
    { intros [= <- <-]. split; auto. }
    destruct (Z.to_nat max_iter) as [| n] eqn:Hn; cbn [while_loop].
    + assert (G : Bisection.guard max_iter (Bisection.init a b) = false).
      { unfold Bisection.guard. cbn. apply Z.leb_gt. lia. }
      rewrite G. intros [= <- <-]. split; [intros _; right; lia | reflexivity].
    + assert (G : Bisection.guard max_iter (Bisection.init a b) = true).
      { unfold Bisection.guard. cbn. apply Z.leb_le. lia. }
      rewrite G.
      assert (Hne : forall s s', Bisection.body f tol s = Continue s' \/
                                 Bisection.body f tol s = Break s' ->
                                 Bisection.table_data s' <> []).
      { intros s s' H.
        destruct (bisection_body_record f tol s s' H) as (d & -> & _).
        now destruct (Bisection.table_data s). }
      destruct (Bisection.body f tol (Bisection.init a b)) as [s1 | s1 | e] eqn:E.
      * destruct (while_loop _ _ n s1) as [o |] eqn:Ho; [| discriminate].
        pose proof (while_loop_preserves (Bisection.guard max_iter)
                      (Bisection.body f tol)
                      (fun s => Bisection.table_data s <> [])
                      (fun s s' _ H => Hne s s' H) n s1 o
                      (Hne _ _ (or_introl E)) Ho) as R.
        destruct o as [s | e s]; [| discriminate].
        intros [= <- <-]. cbn in R.
        split; [intros H; contradiction | intros [H | H]; [discriminate | lia]].
      * intros [= <- <-]. pose proof (Hne _ _ (or_intror E)) as R.
        split; [intros H; contradiction | intros [H | H]; [discriminate | lia]].
      * discriminate.
  - intros ->. pose proof (bisection_covered f a b tol max_iter roots [] Hrun) as C.
    unfold covered in C. cbn in C. destruct roots; [reflexivity | cbn in C; lia].
Qed.

Lemma X3_witness :
  exists roots table,
    Bisection.bisection_method sq_minus_4 0 5 0.001 50 = Some (Py.Ok (roots, table)) /\
    (table = [] <-> (0 <? (0 * 0 - 4) * (5 * 5 - 4))%float = true \/ 50 <= 0) /\
    (table = [] -> roots = []).
Proof.
  pose (r := match Bisection.bisection_method sq_minus_4 0 5 0.001 50 with
             | Some (Py.Ok r) => r
             | _ => ([], [])
             end).
  assert (E : Bisection.bisection_method sq_minus_4 0 5 0.001 50 =
              Some (Py.Ok (fst r, snd r))) by (vm_compute; reflexivity).
  exists (fst r), (snd r).
  split; [exact E |].
  exact (X3_bisection_empty_table sq_minus_4 0 5 0.001 50
           (0 * 0 - 4)%float (5 * 5 - 4)%float (fst r) (snd r)
           eq_refl eq_refl E).
Defined.

(** ** Newton-Raphson and secant, further *)

(** A [for] loop over [range]-like indices, with an invariant that
    counts the passes made. *)
Lemma for_loop_indexed {St : Type} (body : Z -> St -> step St) (Post : St -> Prop) :
  forall (len a : nat) (Inv : nat -> St -> Prop),
    (forall k s s', (k < len)%nat -> Inv k s ->
       body (Z.of_nat (a + k)) s = Continue s' -> Inv (S k) s') ->
    (forall k s s', (k < len)%nat -> Inv k s ->
       body (Z.of_nat (a + k)) s = Break s' -> Post s') ->
    (forall s, Inv len s -> Post s) ->
    forall s, Inv 0%nat s ->
      match for_loop body (map Z.of_nat (seq a len)) s with
      | Done s' => Post s'
      | Raised _ _ => True
      end.
Proof.
  induction len as [| len IH]; intros a Inv Hc Hb Hend s Hs; cbn.
  - now apply Hend.
  - destruct (body (Z.of_nat a) s) as [s' | s' | e] eqn:E; [| | exact I].
    + apply (IH (S a) (fun k => Inv (S k))).
      * intros k s1 s2 Hk H1 E1. apply (Hc (S k) s1 s2); [lia | exact H1 |].
        now rewrite Nat.add_succ_r.
      * intros k s1 s2 Hk H1 E1. apply (Hb (S k) s1 s2); [lia | exact H1 |].
        now rewrite Nat.add_succ_r.
      * exact Hend.
      * apply (Hc 0%nat s s'); [lia | exact Hs |]. now rewrite Nat.add_0_r.
    + apply (Hb 0%nat s s'); [lia | exact Hs |]. now rewrite Nat.add_0_r.
Qed.

(** The record of a Newton-Raphson pass. *)
Lemma newton_pass_record (f df : objective) (tol : float) (max_iter i : Z)
  (s s' : Newton.state) :
  (Newton.body f df tol max_iter i s = Continue s' ->
   Newton.roots s' = Newton.roots s /\
   exists d,
     Newton.table_data s' = Newton.table_data s ++ [d] /\
     get "No. of iteration" d = Some (VInt i) /\
     get "ea" d <> Some VNone /\
     get "Status" d = (if i =? max_iter - 1
                       then Some (VStr "Max iterations reached") else None)) /\
  (Newton.body f df tol max_iter i s = Break s' ->
   exists d,
     Newton.table_data s' = Newton.table_data s ++ [d] /\
     get "No. of iteration" d = Some (VInt i) /\
     get "Status" d = None /\
     (get "ea" d = Some VNone -> Newton.roots s' = Newton.roots s)).
Proof.
  destruct (f (Newton.x s)) as [fx | e] eqn:Hf;
    [| unfold Newton.body; rewrite Hf; split; discriminate].
  destruct (df (Newton.x s)) as [dfx | e] eqn:Hdf;
    [| unfold Newton.body; rewrite Hf, Hdf; split; discriminate].
  rewrite (newton_body_eq f df tol max_iter i s fx dfx Hf Hdf). cbv zeta.
  destruct (abs dfx <? tiny)%float;
    [| destruct (relative_error _ _ <? tol)%float];
    split; intros H; try discriminate; injection H as <-;
    cbn [Newton.roots Newton.table_data].
  - eexists. split; [reflexivity |]. repeat split.
  - eexists. split; [reflexivity |]. repeat split.
    unfold Newton.iter_record, Newton.ea_field. cbn.
    destruct (negb _); discriminate.
  - split; [reflexivity |]. eexists. split; [reflexivity |].
    unfold mark_last, Newton.iter_record, Newton.ea_field, set_key.
    destruct (i =? max_iter - 1); cbn; repeat split;
      destruct (negb _); discriminate.
Qed.

(** X4: in the table [newton_raphson] returns the records are
    numbered 0, 1, ... under [No. of iteration]; a record carries a
    [Status] only if it is the one of the last allowed iteration
    ([max_iter - 1]), the status is ["Max iterations reached"], all
    [max_iter] passes were made and no root was found; and a record
    whose [ea] is [None] (the flat-derivative stall) is the last one, of
    a run that found no root. *)
Theorem X4_newton_table_shape :
  forall (f df : objective) (x0 tol : float) (max_iter num_guesses : Z)
         (roots : list float) (table : list record),
    Newton.newton_raphson f df x0 tol max_iter num_guesses = Py.Ok (roots, table) ->
    newton_shape max_iter roots table.
Proof.
  intros f df x0 tol max_iter num_guesses roots table.
  unfold Newton.newton_raphson, Newton.run, range.
  set (len := Z.to_nat max_iter).
  pose (Inv := fun (k : nat) (s : Newton.state) =>
    Newton.roots s = [] /\
    List.length (Newton.table_data s) = k /\
    numbered "No. of iteration" 0 (Newton.table_data s) /\
    (forall d, In d (Newton.table_data s) -> get "ea" d <> Some VNone) /\
    (forall d, In d (Newton.table_data s) -> get "Status" d <> None ->
       k = len /\
       get "Status" d = Some (VStr "Max iterations reached") /\
       get "No. of iteration" d = Some (VInt (max_iter - 1)))).
  pose proof (for_loop_indexed (Newton.body f df tol max_iter)
                (fun s => newton_shape max_iter (Newton.roots s) (Newton.table_data s))
                len 0%nat Inv) as R.
  assert (Hpost : match for_loop (Newton.body f df tol max_iter)
                          (map Z.of_nat (seq 0 len)) (Newton.init x0) with
                  | Done s' => newton_shape max_iter (Newton.roots s') (Newton.table_data s')
                  | Raised _ _ => True
                  end).
  { apply R; clear R.
    - (* a pass that goes on *)
      intros k s s' Hk (Hr & Hlen & Hnum & Hea & Hst) E. cbn [Nat.add] in E.
      destruct (proj1 (newton_pass_record f df tol max_iter _ s s') E)
        as (Hr' & d & Ht & Hi & Hd & Hs).
      unfold Inv. rewrite Ht, Hr'.
      split; [exact Hr |].
      split; [rewrite length_app; cbn; lia |].
      split; [apply numbered_snoc; [exact Hnum | rewrite Hi, Hlen; reflexivity] |].
      split.
      + intros d' Hin. apply in_app_or in Hin.
        destruct Hin as [Hin | [<- | []]]; auto.
      + intros d' Hin Hd'. apply in_app_or in Hin.
        destruct Hin as [Hin | [<- | []]].
        * destruct (Hst d' Hin Hd') as [Hkl _]. lia.
        * rewrite Hs in Hd' |- *.
          destruct (Z.of_nat k =? max_iter - 1) eqn:T; [| contradiction].
          apply Z.eqb_eq in T.
          split; [unfold len; lia |]. split; [reflexivity |].
          rewrite Hi. do 2 f_equal. exact T.
    - (* a pass that stops *)
      intros k s s' Hk (Hr & Hlen & Hnum & Hea & Hst) E. cbn [Nat.add] in E.
      destruct (proj2 (newton_pass_record f df tol max_iter _ s s') E)
        as (d & Ht & Hi & Hs & Hstall).
      unfold newton_shape. rewrite Ht. split; [| split].
      + apply numbered_snoc; [exact Hnum |]. rewrite Hi, Hlen. reflexivity.
      + intros d' Hin Hd'. apply in_app_or in Hin.
        destruct Hin as [Hin | [<- | []]].
        * destruct (Hst d' Hin Hd') as [Hkl _]. lia.
        * now rewrite Hs in Hd'.
      + intros j d' Hj Hd'.
        destruct (Nat.lt_ge_cases j (List.length (Newton.table_data s))) as [Hlt | Hge].
        * rewrite nth_error_app1 in Hj by exact Hlt.
          apply nth_error_In in Hj. now destruct (Hea d' Hj).
        * rewrite nth_error_app2 in Hj by exact Hge.
          destruct (j - List.length (Newton.table_data s))%nat as [| j'] eqn:Ej;
            cbn in Hj; [| destruct j'; discriminate].
          injection Hj as <-. rewrite length_app. cbn. split; [lia |].
          rewrite (Hstall Hd'). exact Hr.
    - (* the passes run out *)
      intros s (Hr & Hlen & Hnum & Hea & Hst).
      unfold newton_shape. split; [exact Hnum | split].
      + intros d Hin Hd. destruct (Hst d Hin Hd) as (_ & H1 & H2). auto.
      + intros j d Hj Hd. apply nth_error_In in Hj. now destruct (Hea d Hj).
    - (* at the start *)
      unfold Inv. cbn.
      split; [reflexivity |]. split; [reflexivity |].
      split; [apply numbered_nil |]. split; intros d []. }
  destruct (for_loop _ _ _) as [s | e s]; [| discriminate].
  intros [= <- <-]. exact Hpost.
Qed.

Lemma X4_witness :
  exists table,
    Newton.newton_raphson sq_minus_4 two_x 1 0.001 2 5 = Py.Ok ([], table) /\
    newton_shape 2 [] table /\
    List.length table = 2%nat.
Proof.
  pose (table := match Newton.newton_raphson sq_minus_4 two_x 1 0.001 2 5 with
                 | Py.Ok (_, t) => t
                 | Py.Raise _ => []
                 end).
  assert (E : Newton.newton_raphson sq_minus_4 two_x 1 0.001 2 5 = Py.Ok ([], table))
    by (vm_compute; reflexivity).
  exists table. split; [exact E |]. split.
  - exact (X4_newton_table_shape sq_minus_4 two_x 1 0.001 2 5 [] table E).
  - reflexivity.
Defined.

(** The record of a secant pass. *)
Lemma secant_pass_record (f : objective) (tol : float) (max_iter i : Z)
  (s s' : Secant.state) :
  (Secant.body f tol max_iter i s = Continue s' ->
   Secant.roots s' = Secant.roots s /\
   exists d,
     Secant.table_data s' = Secant.table_data s ++ [d] /\
     get "Iteration Number" d = Some (VInt (i + 1)) /\
     get "Status" d = (if i =? max_iter - 1
                       then Some (VStr "Max iterations reached") else None)) /\
  (Secant.body f tol max_iter i s = Break s' ->
   (Secant.f_slope_is_flat f s /\ s' = s) \/
   exists d,
     Secant.table_data s' = Secant.table_data s ++ [d] /\
     get "Iteration Number" d = Some (VInt (i + 1)) /\
     get "Status" d = None).
Proof.
  destruct (f (Secant.xi_prev s)) as [f_prev | e] eqn:Hp;
    [| unfold Secant.body; rewrite Hp; split; discriminate].
  destruct (f (Secant.xi s)) as [f_curr | e] eqn:Hc;
    [| unfold Secant.body; rewrite Hp, Hc; split; discriminate].
  destruct (abs (f_curr - f_prev) <? tiny)%float eqn:G.
  { unfold Secant.body. rewrite Hp, Hc, G.
    split; [discriminate | intros [= <-]]. left. split; [| reflexivity].
    exists f_prev, f_curr. auto. }
  destruct (f (Secant.xi s - f_curr * (Secant.xi s - Secant.xi_prev s)
                             / (f_curr - f_prev))%float) as [f_next | e] eqn:Hn.
  - rewrite (secant_body_eq f tol max_iter i s f_prev f_curr f_next Hp Hc G Hn).
    cbv zeta.
    destruct ((relative_error _ _ <? tol)%float && (abs f_next <? tol)%float);
      split; intros H; try discriminate; injection H as <-;
      cbn [Secant.roots Secant.table_data].
    + right. eexists. split; [reflexivity |]. split; reflexivity.
    + split; [reflexivity |]. eexists. split; [reflexivity |].
      unfold mark_last, Secant.iter_record, set_key.
      destruct (i =? max_iter - 1); cbn; split; reflexivity.
  - unfold Secant.body.
    rewrite Hp, Hc, G, (guarded_div _ _ G), rel_error_secant, Hn.
    split; discriminate.
Qed.

(** X5: in the table [secant_method] returns the records are numbered
    1, 2, ... under [Iteration Number] and there are at most [max_iter];
    a record carries a [Status] only if it is the one of the last
    allowed iteration, the status is ["Max iterations reached"], all
    [max_iter] passes were made and no root was found. *)
Theorem X5_secant_table_shape :
  forall (f : objective) (x0 x1 tol : float) (max_iter : Z)
         (roots : list float) (table : list record),
    Secant.secant_method f x0 x1 tol max_iter = Py.Ok (roots, table) ->
    secant_shape max_iter roots table.
Proof.
  intros f x0 x1 tol max_iter roots table.
  unfold Secant.secant_method, Secant.run, range.
  set (len := Z.to_nat max_iter).
  pose (Inv := fun (k : nat) (s : Secant.state) =>
    Secant.roots s = [] /\
    List.length (Secant.table_data s) = k /\
    numbered "Iteration Number" 1 (Secant.table_data s) /\
    (forall d, In d (Secant.table_data s) -> get "Status" d <> None ->
       k = len /\
       get "Status" d = Some (VStr "Max iterations reached") /\
       get "Iteration Number" d = Some (VInt max_iter))).
  assert (Hpost : match for_loop (Secant.body f tol max_iter)
                          (map Z.of_nat (seq 0 len)) (Secant.init x0 x1) with
                  | Done s' => secant_shape max_iter (Secant.roots s') (Secant.table_data s')
                  | Raised _ _ => True
                  end).
  { apply (for_loop_indexed (Secant.body f tol max_iter)
             (fun s => secant_shape max_iter (Secant.roots s) (Secant.table_data s))
             len 0%nat Inv).
    - intros k s s' Hk (Hr & Hlen & Hnum & Hst) E. cbn [Nat.add] in E.
      destruct (proj1 (secant_pass_record f tol max_iter _ s s') E)
        as (Hr' & d & Ht & Hi & Hs).
      unfold Inv. rewrite Ht, Hr'.
      split; [exact Hr |].
      split; [rewrite length_app; cbn; lia |].
      split.
      + apply numbered_snoc; [exact Hnum |]. rewrite Hi, Hlen.
        do 2 f_equal. lia.
      + intros d' Hin Hd'. apply in_app_or in Hin.
        destruct Hin as [Hin | [<- | []]].
        * destruct (Hst d' Hin Hd') as [Hkl _]. lia.
        * rewrite Hs in Hd' |- *.
          destruct (Z.of_nat k =? max_iter - 1) eqn:T; [| contradiction].
          apply Z.eqb_eq in T.
          split; [unfold len; lia |]. split; [reflexivity |].
          rewrite Hi. do 2 f_equal. lia.
    - intros k s s' Hk (Hr & Hlen & Hnum & Hst) E. cbn [Nat.add] in E.
      destruct (proj2 (secant_pass_record f tol max_iter _ s s') E)
        as [[_ ->] | (d & Ht & Hi & Hs)]; unfold secant_shape.
      + split; [exact Hnum |]. split; [lia |].
        intros d Hin Hd. destruct (Hst d Hin Hd) as [Hkl _]. lia.
      + rewrite Ht. split; [| split].
        * apply numbered_snoc; [exact Hnum |]. rewrite Hi, Hlen.
          do 2 f_equal. lia.
        * rewrite length_app. cbn. lia.
        * intros d' Hin Hd'. apply in_app_or in Hin.
          destruct Hin as [Hin | [<- | []]].
          -- destruct (Hst d' Hin Hd') as [Hkl _]. lia.
          -- now rewrite Hs in Hd'.
    - intros s (Hr & Hlen & Hnum & Hst). unfold secant_shape.
      split; [exact Hnum |]. split; [lia |].
      intros d Hin Hd. destruct (Hst d Hin Hd) as (_ & H1 & H2). auto.
    - unfold Inv. cbn.
      split; [reflexivity |]. split; [reflexivity |].
      split; [apply numbered_nil | intros d []]. }
  destruct (for_loop _ _ _) as [s | e s]; [| discriminate].
  intros [= <- <-]. exact Hpost.
Qed.

Lemma X5_witness :
  exists table,
    Secant.secant_method sq_minus_4 0.5 5 0.001 3 = Py.Ok ([], table) /\
    secant_shape 3 [] table /\
    List.length table = 3%nat.
Proof.
  pose (table := match Secant.secant_method sq_minus_4 0.5 5 0.001 3 with
                 | Py.Ok (_, t) => t
                 | Py.Raise _ => []
                 end).
  assert (E : Secant.secant_method sq_minus_4 0.5 5 0.001 3 = Py.Ok ([], table))
    by (vm_compute; reflexivity).
  exists table. split; [exact E |]. split.
  - exact (X5_secant_table_shape sq_minus_4 0.5 5 0.001 3 [] table E).
  - reflexivity.
Defined.

(** X6: [secant_method] returns an empty table exactly when
    [max_iter] allows no pass or the slope between the two starting
    points is flat ([|f(x1) - f(x0)| < 1e-10]); in every other run that
    returns, the first pass leaves a record. *)
Theorem X6_secant_empty_table :
  forall (f : objective) (x0 x1 tol : float) (max_iter : Z)
         (roots : list float) (table : list record),
    Secant.secant_method f x0 x1 tol max_iter = Py.Ok (roots, table) ->
    (table = [] <-> max_iter <= 0 \/ Secant.f_slope_is_flat f (Secant.init x0 x1)) /\
    (table = [] -> roots = []).
Proof.
  intros f x0 x1 tol max_iter roots table Hrun.
  split.
  - revert Hrun. unfold Secant.secant_method, Secant.run.
    destruct (Z.le_gt_cases max_iter 0) as [Hle | Hgt].
    { unfold range. replace (Z.to_nat max_iter) with 0%nat by lia.
      intros [= <- <-]. split; auto. }
    destruct (range_pos max_iter ltac:(lia)) as [rest ->]. cbn [for_loop].
    destruct (Secant.body f tol max_iter 0 (Secant.init x0 x1))
      as [s1 | s1 | e] eqn:E; [| | discriminate].
    + destruct (proj1 (secant_pass_record f tol max_iter 0 _ s1) E)
        as (_ & d & Ht & _).
      assert (H1 : Secant.table_data s1 <> []).
      { rewrite Ht. cbn. discriminate. }
      assert (Hflat : ~ Secant.f_slope_is_flat f (Secant.init x0 x1)).
      { intros (f_prev & f_curr & Hp & Hc & G).
        unfold Secant.body in E. rewrite Hp, Hc, G in E. discriminate. }
      assert (R := for_loop_preserves (Secant.body f tol max_iter)
                     (fun s => Secant.table_data s <> [])
                     (fun i s s' Hs H =>
                        match secant_paired f tol max_iter i s s' H with
                        | or_introl (conj _ (ex_intro _ l (conj Hl _))) =>
                            fun Hnil => Hs (proj1 (app_eq_nil _ _ (eq_trans (eq_sym Hl) Hnil)))
                        | or_intror (ex_intro _ r (ex_intro _ d0 (conj _ (conj Hl _)))) =>
                            fun Hnil => Hs (proj1 (app_eq_nil _ _ (eq_trans (eq_sym Hl) Hnil)))
                        end)
                     rest s1 H1).
      destruct (for_loop _ rest s1) as [s | e s]; [| discriminate].
      intros [= <- <-]. cbn in R.
      split; [intros H; contradiction | intros [H | H]; [lia | contradiction]].
    + destruct (proj2 (secant_pass_record f tol max_iter 0 _ s1) E)
        as [[Hflat ->] | (d & Ht & _)].
      * intros [= <- <-]. cbn. split; auto.
      * assert (Hflat : ~ Secant.f_slope_is_flat f (Secant.init x0 x1)).
        { intros (f_prev & f_curr & Hp & Hc & G).
          unfold Secant.body in E. rewrite Hp, Hc, G in E.
          injection E as <-. cbn in Ht. discriminate. }
        intros [= <- <-]. rewrite Ht. cbn.
        split; [discriminate | intros [H | H]; [lia | contradiction]].
  - intros ->. pose proof (secant_covered f x0 x1 tol max_iter roots [] Hrun) as C.
    unfold covered in C. cbn in C. destruct roots; [reflexivity | cbn in C; lia].
Qed.

Lemma X6_witness :
  ([] = ([] : list record) <->
   100 <= 0 \/ Secant.f_slope_is_flat const_one (Secant.init 0.5 5)) /\
  ([] = ([] : list record) -> [] = ([] : list float)).
Proof.
  exact (X6_secant_empty_table const_one 0.5 5 0.001 100 [] [] eq_refl).
Defined.

(** X7: when [f] takes one and the same finite value at the two
    starting points (equal points, or mirror points of an even
    function), [secant_method] returns [([], [])]: the slope guard stops
    the first pass before anything is recorded. *)
Theorem X7_secant_equal_values :
  forall (f : objective) (x0 x1 tol : float) (max_iter : Z) (v : float),
    f x0 = Py.Ok v ->
    f x1 = Py.Ok v ->
    is_finite v = true ->
    Secant.secant_method f x0 x1 tol max_iter = Py.Ok ([], []).
Proof.
  intros f x0 x1 tol max_iter v H0 H1 Hv.
  unfold Secant.secant_method, Secant.run.
  destruct (Z.le_gt_cases max_iter 0) as [Hle | Hgt].
  { unfold range. replace (Z.to_nat max_iter) with 0%nat by lia. reflexivity. }
  destruct (range_pos max_iter ltac:(lia)) as [rest ->]. cbn [for_loop].
  unfold Secant.body. cbn [Secant.xi_prev Secant.xi Secant.init].
  rewrite H0, H1.
  destruct (zero_compare _ (finite_sub_self v Hv)) as (_ & _ & _ & _ & G).
  now rewrite G.
Qed.

Lemma X7_witness :
  Secant.secant_method sq_minus_4 (-1) 1 0.001 100 = Py.Ok ([], []).
Proof.
  apply (X7_secant_equal_values sq_minus_4 (-1) 1 0.001 100 (-3)); reflexivity.
Defined.

(** ** Regula falsi, further *)

(** X8: a subinterval at one end of which [f] is exactly zero (the
    other value being finite) is skipped: the product is a zero, which
    passes the test [f(x1)*f(x2) >= 0].  A root that falls on a point of
    the partition is therefore not looked for on either side of it. *)
Theorem X8_regula_falsi_skips_exact_zero :
  forall (f : objective) (a tol : float) (max_iter : Z) (size : float) (i : Z)
         (acc : list float * list record) (x1 x2 y1 y2 : float),
    RegulaFalsi.endpoints a size i = (x1, x2) ->
    f x1 = Py.Ok y1 ->
    f x2 = Py.Ok y2 ->
    ((y1 =? 0)%float = true /\ is_finite y2 = true) \/
    ((y2 =? 0)%float = true /\ is_finite y1 = true) ->
    RegulaFalsi.scan f a tol max_iter size i acc = Continue acc.
Proof.
  intros f a tol max_iter size i acc x1 x2 y1 y2 He H1 H2 Hz.
  unfold RegulaFalsi.scan, RegulaFalsi.skipped. rewrite He, H1, H2.
  assert (P : (y1 * y2 =? 0)%float = true).
  { destruct Hz as [[Hy Hf] | [Hy Hf]].
    - exact (proj1 (zero_mul_finite y1 y2 Hy Hf)).
    - exact (proj2 (zero_mul_finite y2 y1 Hy Hf)). }
  now rewrite (proj1 (zero_compare _ P)).
Qed.

Lemma X8_witness :
  RegulaFalsi.scan sq_minus_4 0 1e-6 100 1 1 ([], []) = Continue ([], []) /\
  RegulaFalsi.scan sq_minus_4 0 1e-6 100 1 2 ([], []) = Continue ([], []).
Proof.
  split.
  - apply (X8_regula_falsi_skips_exact_zero sq_minus_4 0 1e-6 100 1 1 ([], [])
             1 2 (-3) 0); try reflexivity.
    right. split; reflexivity.
  - apply (X8_regula_falsi_skips_exact_zero sq_minus_4 0 1e-6 100 1 2 ([], [])
             2 3 0 5); try reflexivity.
    left. split; reflexivity.
Defined.

Lemma in_range (n i : Z) : In i (range n) -> 0 <= i < n.
Proof.
  unfold range. rewrite in_map_iff. intros (k & <- & Hk).
  apply in_seq in Hk. lia.
Qed.

Lemma for_loop_all_continue {St : Type} (body : Z -> St -> step St) (s : St) :
  forall xs, (forall i, In i xs -> body i s = Continue s) ->
             for_loop body xs s = Done s.
Proof.
  induction xs as [| i rest IH]; intros H; cbn; [reflexivity |].
  rewrite (H i (or_introl eq_refl)). apply IH.
  intros j Hj. apply H. now right.
Qed.

(** X9: when no subinterval of the partition shows a strict sign
    change ([f(x1)*f(x2) >= 0] on each), [regula_falsi] returns
    [([], [])]: skipped subintervals leave no record. *)
Theorem X9_regula_falsi_nothing_to_iterate :
  forall (f : objective) (a b tol : float) (max_iter num_intervals : Z)
         (size : float),
    Py.div (b - a)%float (of_int num_intervals) = Py.Ok size ->
    (forall i, 0 <= i < num_intervals ->
       exists y1 y2,
         f (fst (RegulaFalsi.endpoints a size i)) = Py.Ok y1 /\
         f (snd (RegulaFalsi.endpoints a size i)) = Py.Ok y2 /\
         (0 <=? y1 * y2)%float = true) ->
    RegulaFalsi.regula_falsi f a b tol max_iter num_intervals = Py.Ok ([], []).
Proof.
  intros f a b tol max_iter num_intervals size Hsize Hall.
  unfold RegulaFalsi.regula_falsi. rewrite Hsize. cbn [Py.bind].
  rewrite for_loop_all_continue; [reflexivity |].
  intros i Hi. apply in_range in Hi.
  destruct (Hall i Hi) as (y1 & y2 & H1 & H2 & Hp).
  unfold RegulaFalsi.scan, RegulaFalsi.skipped.
  destruct (RegulaFalsi.endpoints a size i) as [x1 x2]. cbn [fst snd] in H1, H2.
  now rewrite H1, H2, Hp.
Qed.

Lemma X9_witness :
  RegulaFalsi.regula_falsi sq_minus_4 0 10 1e-6 100 10 = Py.Ok ([], []).
Proof.
  apply (X9_regula_falsi_nothing_to_iterate sq_minus_4 0 10 1e-6 100 10 1);
    [reflexivity |].
  intros i Hi.
  assert (H : i = 0 \/ i = 1 \/ i = 2 \/ i = 3 \/ i = 4 \/
              i = 5 \/ i = 6 \/ i = 7 \/ i = 8 \/ i = 9) by lia.
  repeat (destruct H as [-> | H]); try subst i;
    do 2 eexists; (split; [reflexivity |]); (split; [reflexivity |]);
    vm_compute; reflexivity.
Defined.

(** A loop whose passes each add at most [k] elements to a list adds
    at most [k] times the number of passes. *)
Lemma for_loop_growth_by {St : Type} (body : Z -> St -> step St)
  (size : St -> nat) (k : nat) :
  (forall i s s', body i s = Continue s' \/ body i s = Break s' ->
                  (size s' <= size s + k)%nat) ->
  forall xs s,
    (size (final (for_loop body xs s)) <= size s + k * List.length xs)%nat.
Proof.
  intros Hstep xs.
  induction xs as [| i rest IH]; intros s; cbn [for_loop List.length].
  - cbn. lia.
  - destruct (body i s) as [s' | s' | e] eqn:E; cbn [final].
    + specialize (IH s'). specialize (Hstep i s s' (or_introl E)). nia.
    + specialize (Hstep i s s' (or_intror E)). nia.
    + nia.
Qed.

(** What a false-position pass can do to the root list. *)
Lemma regula_falsi_body_roots (f : objective) (tol x1 x2 : float) (i : Z)
  (s s' : RegulaFalsi.state) :
  (RegulaFalsi.body f tol x1 x2 i s = Continue s' ->
   RegulaFalsi.roots s' = RegulaFalsi.roots s) /\
  (RegulaFalsi.body f tol x1 x2 i s = Break s' ->
   (List.length (RegulaFalsi.roots s') <= S (List.length (RegulaFalsi.roots s)))%nat).
Proof.
  unfold RegulaFalsi.body.
  destruct (Py.div _ _) as [c | e]; [| split; discriminate].
  destruct (f c) as [fc | e]; [| split; discriminate].
  destruct (abs fc <? tol)%float.
  { split; [discriminate | intros [= <-]]. cbn.
    destruct (RegulaFalsi.is_unique _ _ _); rewrite ?length_app; cbn; lia. }
  destruct (RegulaFalsi.fl s * fc <? 0)%float; cbn [RegulaFalsi.left RegulaFalsi.right];
    match goal with |- context [if ?t then _ else _] => destruct t end;
    split; intros H; try discriminate; injection H as <-; cbn; try reflexivity; lia.
Qed.

(** One subinterval adds at most [max_iter] records and one root. *)
Lemma regula_falsi_scan_growth (f : objective) (a tol : float) (max_iter : Z)
  (size : float) (i : Z) (acc acc' : list float * list record) :
  RegulaFalsi.scan f a tol max_iter size i acc = Continue acc' \/
  RegulaFalsi.scan f a tol max_iter size i acc = Break acc' ->
  (List.length (snd acc') <= List.length (snd acc) + Z.to_nat max_iter)%nat /\
  (List.length (fst acc') <= List.length (fst acc) + 1)%nat.
Proof.
  unfold RegulaFalsi.scan, RegulaFalsi.attempt.
  destruct (RegulaFalsi.endpoints a size i) as [x1 x2].
  destruct (f x1) as [y1 | e]; [| intros [H | H]; discriminate].
  destruct (f x2) as [y2 | e]; [| intros [H | H]; discriminate].
  destruct (RegulaFalsi.skipped y1 y2).
  { intros [H | H]; [injection H as <- | discriminate]. lia. }
  set (s0 := RegulaFalsi.mk x1 x2 y1 y2 (fst acc) (snd acc)).
  assert (Hone : forall j s s',
            RegulaFalsi.body f tol x1 x2 j s = Continue s' \/
            RegulaFalsi.body f tol x1 x2 j s = Break s' ->
            (List.length (RegulaFalsi.table_data s')
             <= S (List.length (RegulaFalsi.table_data s)))%nat).
  { intros j s s' H.
    destruct (RegulaFalsiFacts.body_appends f tol x1 x2 j s s' H) as [d ->].
    rewrite length_app. cbn. lia. }
  pose proof (for_loop_growth (RegulaFalsi.body f tol x1 x2)
                (fun st => List.length (RegulaFalsi.table_data st))
                Hone (range max_iter) s0) as Ht.
  rewrite length_range in Ht.
  assert (Hr : match for_loop (RegulaFalsi.body f tol x1 x2) (range max_iter) s0 with
               | Done s' => (List.length (RegulaFalsi.roots s')
                             <= List.length (fst acc) + 1)%nat
               | Raised _ s' => RegulaFalsi.roots s' = fst acc
               end).
  { apply (for_loop_rule (RegulaFalsi.body f tol x1 x2)
             (fun s => RegulaFalsi.roots s = fst acc)
             (fun s => (List.length (RegulaFalsi.roots s)
                        <= List.length (fst acc) + 1)%nat)).
    - intros j s s' Hs E.
      now rewrite (proj1 (regula_falsi_body_roots f tol x1 x2 j s s') E).
    - intros j s s' Hs E.
      pose proof (proj2 (regula_falsi_body_roots f tol x1 x2 j s s') E) as H.
      rewrite Hs in H. lia.
    - intros s ->. lia.
    - reflexivity. }
  destruct (for_loop _ _ s0) as [s | e s];
    intros [H | H]; try discriminate; injection H as <-; cbn in *. split; [lia | exact Hr].
Qed.

(** X10: [regula_falsi] returns at most [num_intervals * max_iter]
    records and at most [num_intervals] roots: every subinterval gets at
    most [max_iter] passes and stops at the first root it accepts. *)
Theorem X10_regula_falsi_bounds :
  forall (f : objective) (a b tol : float) (max_iter num_intervals : Z)
         (roots : list float) (table : list record),
    RegulaFalsi.regula_falsi f a b tol max_iter num_intervals = Py.Ok (roots, table) ->
    (List.length table <= Z.to_nat num_intervals * Z.to_nat max_iter)%nat /\
    (List.length roots <= Z.to_nat num_intervals)%nat.
Proof.
  intros f a b tol max_iter num_intervals roots table.
  unfold RegulaFalsi.regula_falsi.
  destruct (Py.div _ _) as [size | e]; [| discriminate]. cbn [Py.bind].
  pose proof (for_loop_growth_by (RegulaFalsi.scan f a tol max_iter size)
                (fun acc => List.length (snd acc)) (Z.to_nat max_iter)
                (fun i acc acc' H =>
                   proj1 (regula_falsi_scan_growth f a tol max_iter size i acc acc' H))
                (range num_intervals) ([], [])) as Ht.
  pose proof (for_loop_growth_by (RegulaFalsi.scan f a tol max_iter size)
                (fun acc => List.length (fst acc)) 1
                (fun i acc acc' H =>
                   proj2 (regula_falsi_scan_growth f a tol max_iter size i acc acc' H))
                (range num_intervals) ([], [])) as Hr.
  rewrite length_range in Ht, Hr.
  destruct (for_loop _ _ _) as [acc | e acc]; [| discriminate].
  intros [= ->]. cbn in Ht, Hr. split; lia.
Qed.

Lemma X10_witness :
  exists roots table,
    RegulaFalsi.regula_falsi sq_minus_4 0 3 1e-6 100 1 = Py.Ok (roots, table) /\
    (List.length table <= Z.to_nat 1 * Z.to_nat 100)%nat /\
    (List.length roots <= Z.to_nat 1)%nat.
Proof.
  pose (r := match RegulaFalsi.regula_falsi sq_minus_4 0 3 1e-6 100 1 with
             | Py.Ok p => p
             | Py.Raise _ => ([], [])
             end).
  assert (E : RegulaFalsi.regula_falsi sq_minus_4 0 3 1e-6 100 1 = Py.Ok (fst r, snd r))
    by (vm_compute; reflexivity).
  exists (fst r), (snd r). split; [exact E |].
  exact (X10_regula_falsi_bounds sq_minus_4 0 3 1e-6 100 1 (fst r) (snd r) E).
Defined.

(** ** Incremental search, further *)

(** Every step appends one record, numbered with the step. *)
Lemma incremental_body_record (f : objective) (step : float) (s : Incremental.state) :
  exists d,
    Incremental.table_data (Incremental.body f step s) =
      Incremental.table_data s ++ [d] /\
    get "i" d = Some (VInt (Incremental.iteration s)) /\
    Incremental.iteration (Incremental.body f step s) = Incremental.iteration s + 1.
Proof.
  unfold Incremental.body.
  destruct (Incremental.samples f _ _) as [[fx fx_next] | e]; cbn;
    eexists; repeat split.
Qed.

(** X11: in the table [incremental_search] returns the records are
    numbered 1, 2, ... under [i], one per step; the table is empty
    exactly when [a <= b] does not hold (which includes a NaN end), and
    then the roots are empty too. *)
Theorem X11_incremental_table_shape :
  forall (f : objective) (a b step : float) (fuel : nat)
         (roots : list float) (table : list record),
    Incremental.incremental_search f a b step fuel = Some (Py.Ok (roots, table)) ->
    numbered "i" 1 table /\
    (table = [] <-> (a <=? b)%float = false) /\
    (table = [] -> roots = []).
Proof.
  intros f a b step fuel roots table Hrun.
  assert (Hcov := incremental_covered f a b step fuel roots table Hrun).
  revert Hrun.
  unfold Incremental.incremental_search, Incremental.run, Incremental.loop.
  destruct (while_loop _ _ _ _) as [o |] eqn:E; [| discriminate].
  pose (Inv := fun s : Incremental.state =>
    Incremental.iteration s = 1 + Z.of_nat (List.length (Incremental.table_data s)) /\
    numbered "i" 1 (Incremental.table_data s) /\
    (Incremental.table_data s = [] -> s = Incremental.init a)).
  assert (R : match o with
              | Done s' =>
                  numbered "i" 1 (Incremental.table_data s') /\
                  (Incremental.table_data s' = [] -> (a <=? b)%float = false)
              | Raised _ s' => Inv s' /\ Incremental.guard b s' = true
              end).
  { apply (while_loop_rule (Incremental.guard b)
             (fun s => Continue (Incremental.body f step s)) Inv
             (fun s => numbered "i" 1 (Incremental.table_data s) /\
                       (Incremental.table_data s = [] -> (a <=? b)%float = false)))
      with (fuel := fuel) (s := Incremental.init a); [ | | | | exact E].
    - intros s s' (Hit & Hn & _) _ [= <-].
      destruct (incremental_body_record f step s) as (d & Ht & Hi & Hit').
      unfold Inv. rewrite Ht, Hit'.
      split; [rewrite length_app; cbn [List.length]; lia |]. split.
      + apply numbered_snoc; [exact Hn |]. rewrite Hi, Hit. reflexivity.
      + intros H. now destruct (Incremental.table_data s).
    - intros s s' _ _ H. discriminate.
    - intros s (_ & Hn & Hinit) G. split; [exact Hn |].
      intros Hnil. rewrite (Hinit Hnil) in G. exact G.
    - unfold Inv. cbn. split; [reflexivity |]. split; [apply numbered_nil | auto]. }
  destruct o as [s | e s]; [| discriminate].
  intros [= <- <-]. destruct R as [Hn Hnil].
  split; [exact Hn |]. split.
  - split; [exact Hnil |].
    intros Hab. destruct fuel as [| n]; cbn [while_loop] in E;
      change (Incremental.guard b (Incremental.init a)) with (a <=? b)%float in E;
      rewrite Hab in E; now injection E as <-.
  - intros Ht. unfold covered in Hcov. rewrite Ht in Hcov. cbn in Hcov.
    destruct (Incremental.roots s); [reflexivity | cbn in Hcov; lia].
Qed.

Lemma X11_witness :
  exists roots table,
    Incremental.incremental_search reciprocal (-0.2) 0.2 0.1 100
      = Some (Py.Ok (roots, table)) /\
    numbered "i" 1 table /\
    List.length table = 5%nat.
Proof.
  pose (r := match Incremental.incremental_search reciprocal (-0.2) 0.2 0.1 100 with
             | Some (Py.Ok p) => p
             | _ => ([], [])
             end).
  assert (E : Incremental.incremental_search reciprocal (-0.2) 0.2 0.1 100
              = Some (Py.Ok (fst r, snd r))) by (vm_compute; reflexivity).
  exists (fst r), (snd r). split; [exact E |]. split.
  - exact (proj1 (X11_incremental_table_shape reciprocal (-0.2) 0.2 0.1 100
                    (fst r) (snd r) E)).
  - reflexivity.
Defined.

Lemma zero_is_finite (y : float) : (y =? 0)%float = true -> is_finite y = true.
Proof.
  rewrite eqb_zero_spec, is_finite_spec. auto.
Qed.





(** ** Graphical method, further *)

Section GraphicalFurther.
Context {np : NumPy}.

(** The array [f(x_vals)] holds what [f] gives at each grid point. *)
Lemma vectorized_spec (f : objective) :
  forall xs ys,
    vectorized f xs = Py.Ok ys ->
    List.length ys = List.length xs /\
    forall k, (k < List.length xs)%nat ->
      f (nth k xs 0%float) = Py.Ok (nth k ys 0%float).
Proof.
  induction xs as [| x rest IH]; intros ys; cbn.
  - intros [= <-]. split; [reflexivity | intros k Hk; lia].
  - destruct (f x) as [y |] eqn:Hx; [| discriminate]. cbn.
    destruct (vectorized f rest) as [ys' |]; [| discriminate]. cbn.
    intros [= <-]. destruct (IH ys' eq_refl) as [Hl Hn].
    split; [cbn; lia |].
    intros [| k] Hk; [exact Hx | apply Hn; lia].
Qed.

(** What the scan collects over the indices [xs], the objective
    evaluating at each to the array's value. *)
Lemma graphical_scan_content (f : objective) (x_vals y_vals : list float) :
  forall xs s,
    (forall i, In i xs ->
       f (Graphical.at_index x_vals i) = Py.Ok (Graphical.at_index y_vals i)) ->
    exists s',
      for_loop (Graphical.body f x_vals y_vals) xs s = Done s' /\
      Graphical.table_data s' =
        Graphical.table_data s ++
        map (fun i => Graphical.sample_record (Graphical.at_index x_vals i)
                        (Graphical.at_index y_vals i)) xs /\
      Graphical.zero_crossings s' =
        Graphical.zero_crossings s ++ filter (Graphical.sign_change y_vals) xs /\
      Graphical.roots s' =
        Graphical.roots s ++
        map (fun i => around (Graphical.x_root x_vals y_vals i) 6)
            (filter (Graphical.sign_change y_vals) xs).
Proof.
  induction xs as [| i rest IH]; intros s Hf; cbn [for_loop map filter].
  - exists s. rewrite !app_nil_r. auto.
  - unfold Graphical.body at 1. rewrite (Hf i (or_introl eq_refl)).
    destruct (Graphical.sign_change y_vals i) eqn:C;
      (edestruct IH as (s' & Hrun & Ht & Hz & Hr);
       [intros j Hj; apply Hf; now right |]);
      exists s'; rewrite Hrun, Ht, Hz, Hr; cbn; rewrite <- !app_assoc; auto.
Qed.

Lemma sign_change_count (y_vals : list float) (n : nat) :
  (List.length (filter (Graphical.sign_change y_vals) (map Z.of_nat (seq 0 n)))
   <= n - 1)%nat.
Proof.
  destruct n as [| n]; [reflexivity |].
  cbn [seq map filter]. unfold Graphical.sign_change at 1. cbn [Z.of_nat Z.ltb Z.compare andb].
  etransitivity; [apply filter_length_le |].
  rewrite length_map, length_seq. lia.
Qed.

(** What [graphical_method] hands back, in terms of the grid. *)
Lemma graphical_output_spec (f : objective) (x_min x_max step : float)
  (out : Graphical.output) :
  Graphical.graphical_method f x_min x_max step = Py.Ok out ->
  exists x_vals y_vals,
    arange x_min (x_max + step / 2)%float step = Py.Ok x_vals /\
    vectorized f x_vals = Py.Ok y_vals /\
    let indices := range (Z.of_nat (List.length x_vals)) in
    let crossings := filter (Graphical.sign_change y_vals) indices in
    Graphical.out_roots out =
      map (fun i => around (Graphical.x_root x_vals y_vals i) 6) crossings /\
    Graphical.out_table out =
      map (fun i => Graphical.sample_record (Graphical.at_index x_vals i)
                      (Graphical.at_index y_vals i)) indices ++
      (if Graphical.is_periodic out
       then [Graphical.period_record (mean (diff crossings) * step)%float]
       else []) /\
    (Graphical.is_periodic out = true -> (5 <= List.length crossings)%nat).
Proof.
  unfold Graphical.graphical_method.
  destruct (step <=? 0)%float; [discriminate |].
  destruct (arange _ _ _) as [x_vals | e] eqn:Ha; [| discriminate]. cbn [Py.bind].
  destruct (vectorized f x_vals) as [y_vals | e] eqn:Hv; [| discriminate].
  cbn [Py.bind].
  destruct (vectorized_spec f x_vals y_vals Hv) as [Hlen Hnth].
  destruct (graphical_scan_content f x_vals y_vals
              (range (Z.of_nat (List.length x_vals))) (Graphical.mk [] [] []))
    as (s & Hrun & Ht & Hz & Hr).
  { intros i Hi. apply in_range in Hi. unfold Graphical.at_index.
    apply Hnth. lia. }
  unfold Graphical.scan. rewrite Hrun. intros [= <-].
  exists x_vals, y_vals.
  split; [first [reflexivity | assumption] |].
  split; [first [reflexivity | assumption] |]. cbv zeta.
  cbn in Ht, Hz, Hr. unfold Graphical.conclude, Graphical.looks_periodic.
  rewrite Ht, Hz, Hr.
  destruct (4 <? Z.of_nat _) eqn:N; cbn [andb];
    [destruct (std _ <? _)%float |]; cbn;
    rewrite ?app_nil_r; repeat split; try discriminate.
  apply Z.ltb_lt in N. intros _. lia.
Qed.

End GraphicalFurther.

(** X13: the roots [graphical_method] returns are, in order, the
    linear interpolations at the grid indices where
    [y[i-1]*y[i] <= 0], one per crossing and none removed; the table
    holds one [(x, f(x))] record per grid point, in grid order, followed
    by the period record exactly when the function is declared
    periodic. *)
Theorem X13_graphical_output :
  forall (np : NumPy) (f : objective) (x_min x_max step : float)
         (out : Graphical.output),
    Graphical.graphical_method f x_min x_max step = Py.Ok out ->
    exists x_vals y_vals,
      arange x_min (x_max + step / 2)%float step = Py.Ok x_vals /\
      vectorized f x_vals = Py.Ok y_vals /\
      let indices := range (Z.of_nat (List.length x_vals)) in
      let crossings := filter (Graphical.sign_change y_vals) indices in
      Graphical.out_roots out =
        map (fun i => around (Graphical.x_root x_vals y_vals i) 6) crossings /\
      Graphical.out_table out =
        map (fun i => Graphical.sample_record (Graphical.at_index x_vals i)
                        (Graphical.at_index y_vals i)) indices ++
        (if Graphical.is_periodic out
         then [Graphical.period_record (mean (diff crossings) * step)%float]
         else []).
Proof.
  intros np f x_min x_max step out H.
  destruct (graphical_output_spec f x_min x_max step out H)
    as (x_vals & y_vals & Ha & Hv & Hr & Ht & _).
  exists x_vals, y_vals. auto.
Qed.

(** X14: a function is declared periodic only on a grid of at least
    six points: the crossings are found between consecutive samples, so
    five of them need six samples. *)
Theorem X14_graphical_periodic_needs_six_samples :
  forall (np : NumPy) (f : objective) (x_min x_max step : float)
         (out : Graphical.output),
    Graphical.graphical_method f x_min x_max step = Py.Ok out ->
    Graphical.is_periodic out = true ->
    exists x_vals,
      arange x_min (x_max + step / 2)%float step = Py.Ok x_vals /\
      (6 <= List.length x_vals)%nat.
Proof.
  intros np f x_min x_max step out H Hp.
  destruct (graphical_output_spec f x_min x_max step out H)
    as (x_vals & y_vals & Ha & Hv & _ & _ & H5).
  exists x_vals. split; [exact Ha |].
  specialize (H5 Hp). cbv zeta in H5. unfold range in H5.
  rewrite Nat2Z.id in H5.
  pose proof (sign_change_count y_vals (List.length x_vals)). lia.
Qed.

Lemma X13_witness :
  exists out x_vals y_vals,
    Graphical.graphical_method quintic (-3) 3 0.2 = Py.Ok out /\
    arange (-3) (3 + 0.2 / 2)%float 0.2 = Py.Ok x_vals /\
    vectorized quintic x_vals = Py.Ok y_vals /\
    Graphical.out_roots out =
      map (fun i => around (Graphical.x_root x_vals y_vals i) 6)
          (filter (Graphical.sign_change y_vals)
                  (range (Z.of_nat (List.length x_vals)))).
Proof.
  pose (out := match Graphical.graphical_method quintic (-3) 3 0.2 with
               | Py.Ok o => o
               | Py.Raise _ => Graphical.mk_output [] [] false None
               end).
  assert (E : Graphical.graphical_method quintic (-3) 3 0.2 = Py.Ok out)
    by (vm_compute; reflexivity).
  destruct (X13_graphical_output NumPyModel.numpy64 quintic (-3) 3 0.2 out E)
    as (x_vals & y_vals & Ha & Hv & Hr & _).
  exists out, x_vals, y_vals. auto.
Defined.

Lemma X14_witness :
  exists x_vals,
    arange (-3) (3 + 0.2 / 2)%float 0.2 = Py.Ok x_vals /\
    (6 <= List.length x_vals)%nat.
Proof.
  pose (out := match Graphical.graphical_method quintic (-3) 3 0.2 with
               | Py.Ok o => o
               | Py.Raise _ => Graphical.mk_output [] [] false None
               end).
  assert (E : Graphical.graphical_method quintic (-3) 3 0.2 = Py.Ok out)
    by (vm_compute; reflexivity).
  assert (P : Graphical.is_periodic out = true) by (vm_compute; reflexivity).
  exact (X14_graphical_periodic_needs_six_samples NumPyModel.numpy64 quintic
           (-3) 3 0.2 out E P).
Defined.

(** X15: where two consecutive samples are both exactly zero (over a
    finite grid step) the scan counts a crossing and the interpolation
    is [0/0]: the root appended for that index is the rounding of NaN,
    which for NumPy's rounding is NaN itself. *)
Theorem X15_graphical_flat_zero_gives_nan :
  (forall (np : NumPy) (f : objective) (x_vals y_vals : list float) (i : Z)
          (s : Graphical.state) (fx : float),
     0 < i ->
     (Graphical.at_index y_vals (i - 1) =? 0)%float = true ->
     (Graphical.at_index y_vals i =? 0)%float = true ->
     is_finite (Graphical.at_index x_vals i - Graphical.at_index x_vals (i - 1)) = true ->
     f (Graphical.at_index x_vals i) = Py.Ok fx ->
     Graphical.x_root x_vals y_vals i = nan /\
     Graphical.body f x_vals y_vals i s =
       Continue (Graphical.mk
                   (Graphical.roots s ++ [around nan 6])
                   (Graphical.table_data s ++
                    [Graphical.sample_record (Graphical.at_index x_vals i) fx])
                   (Graphical.zero_crossings s ++ [i]))) /\
  NumPyModel.around nan 6 = nan.
Proof.
  split; [| vm_compute; reflexivity].
  intros np f x_vals y_vals i s fx Hi Z0 Z1 Fdx Hf.
  assert (Hroot : Graphical.x_root x_vals y_vals i = nan).
  { unfold Graphical.x_root.
    rewrite (zero_div_zero _ _ (proj1 (zero_mul_finite _ _ Z0 Fdx))
               (zero_sub_zero _ _ Z0 Z1)).
    apply sub_nan. }
  split; [exact Hroot |].
  assert (C : Graphical.sign_change y_vals i = true).
  { unfold Graphical.sign_change. apply andb_true_intro. split.
    - now apply Z.ltb_lt.
    - pose proof (zero_mul_finite _ _ Z0 (zero_is_finite _ Z1)) as [P _].
      exact (proj1 (proj2 (zero_compare _ P))). }
  unfold Graphical.body. now rewrite Hf, C, Hroot.
Qed.

Lemma X15_witness :
  Graphical.x_root [0; 1]%float [0; 0]%float 1 = nan /\
  Graphical.body (fun _ => Py.Ok 0%float) [0; 1]%float [0; 0]%float 1
    (Graphical.mk [] [] []) =
  Continue (Graphical.mk ([] ++ [around nan 6])
              ([] ++ [Graphical.sample_record 1 0]) ([] ++ [1])).
Proof.
  exact (proj1 X15_graphical_flat_zero_gives_nan NumPyModel.numpy64
           (fun _ => Py.Ok 0%float) [0; 1]%float [0; 0]%float 1
           (Graphical.mk [] [] []) 0%float
           ltac:(lia) eq_refl eq_refl eq_refl eq_refl).
Defined.
